(** * Portfolio dashboard (app.py): loader/cleaner, session handling, KPIs

    A shallow embedding of [app.py].  A pandas [DataFrame] is a header
    (the column labels) and a list of rows, each row a finite map from
    column label to cell.  A cell is what [pd.read_csv] leaves in a
    table: the null marker [NaN], a string, or a number.

    Streamlit calls that draw something are collected, in order, in a
    list of [element]s; [st.session_state] is the record
    [session_state], passed in and out of each run of the script.

    What is taken from pandas and Python rather than from this
    repository:
    - numbers are exact rationals: the rounding of float64 arithmetic,
      infinities and the int64/float64 distinction are not modelled,
      and the null of a numeric column is [NaN], apart from every
      number; a sum is stated as the sum over the rows it adds up, and
      no identity that regroups the terms of a sum is stated, since
      float64 addition is not associative;
    - reading one string as a number and printing one number are the
      methods [to_number] and [num_str] of the class [Pandas]; every
      theorem holds for every instance, and [decimal_pandas] is an
      instance that runs;
    - [load_data] starts from what [pd.read_csv] did, an exception or
      a table: fetching and CSV parsing are not modelled;
    - strings are byte strings and [upper] acts on the ASCII letters:
      what Python's [upper] does beyond ASCII (the long s becomes "S")
      is not modelled, and properties of [upper] on arbitrary text are
      stated for ASCII text;
    - [.str] raises on a column without a single string (such a column
      has a numeric dtype when it comes from [read_csv]);
    - [a / b] raises on a zero divisor, as Python's floats do (numpy's
      would give an infinity and a warning); the script guards it;
    - [df['Account'].fillna('Unknown', inplace=True)] (lines 72-73)
      fills the column of [df], as it does without copy-on-write;
    - the charts are plotly's: [dashboard] records the table each
      chart is drawn from; the grouped sums of lines 168 and 179 are
      [value_by_ticker] and [type_distribution]; the hierarchy of the
      treemap is left to plotly, and so is whether a chart can be
      built at all: of the page of the dashboard only what is drawn
      before the first chart is stated. *)

From Stdlib Require Import QArith Ascii String.
From stdpp Require Import base strings list gmap pretty sorting.

Local Open Scope string_scope.
Local Open Scope list_scope.

(** ** Cells, rows, tables *)

#[global] Instance Q_eq_dec : EqDecision Q.
Proof. solve_decision. Defined.

Inductive cell :=
  | NaN
  | Str (s : string)
  | Num (q : Q).

#[global] Instance cell_eq_dec : EqDecision cell.
Proof. solve_decision. Defined.

Abbreviation Row := (gmap string cell).

Record DataFrame := mkDF { columns : list string; rows : list Row }.

#[global] Instance DataFrame_eq_dec : EqDecision DataFrame.
Proof. solve_decision. Defined.

(** [pd.DataFrame()]: no columns, no rows. *)
Definition pd_DataFrame : DataFrame := mkDF [] [].

(** [df.empty]: some axis has length 0. *)
Definition df_empty (df : DataFrame) : bool :=
  match columns df, rows df with
  | [], _ | _, [] => true
  | _, _ => false
  end.

(** The cell of row [r] under column [c]; [read_csv] pads a short line
    with nulls, so an absent key reads as [NaN]. *)
Definition get (c : string) (r : Row) : cell := default NaN (r !! c).

(** [df[c]] as the list of its values. *)
Definition column (c : string) (df : DataFrame) : list cell :=
  get c <$> rows df.

(** One row of [df[c] = f(df[c])]. *)
Definition upd (c : string) (f : cell → cell) (r : Row) : Row :=
  <[c := f (get c r)]> r.

(** [df[c] = f(df[c])] for an elementwise [f]. *)
Definition assign (c : string) (f : cell → cell) (df : DataFrame) : DataFrame :=
  mkDF (columns df) (upd c f <$> rows df).

(** [df.loc[mask, c] = f(df.loc[mask, c])] for an elementwise [f]. *)
Definition loc_assign (mask : list bool) (c : string) (f : cell → cell)
    (df : DataFrame) : DataFrame :=
  mkDF (columns df)
       (zip_with (λ (m : bool) r, if m then upd c f r else r) mask (rows df)).

Definition isna (v : cell) : bool :=
  match v with NaN => true | _ => false end.

Definition notna (v : cell) : bool := negb (isna v).

(** [Series.fillna(v)] on one element. *)
Definition fillna (v : cell) (x : cell) : cell :=
  match x with NaN => v | _ => x end.

(** [df.dropna(subset=cols)]: keep the rows with no null under [cols]. *)
Definition dropna (subset : list string) (df : DataFrame) : DataFrame :=
  mkDF (columns df)
       (filter (λ r, forallb (λ c, notna (get c r)) subset = true) (rows df)).

(** ** Exceptions *)

Inductive exn :=
  | AttributeError     (* .str on a column that holds no string *)
  | TypeError          (* arithmetic on a string *)
  | KeyError (c : string) (* df[c] without a column c *)
  | ZeroDivisionError
  | IOError (msg : string).  (* whatever [pd.read_csv] raised *)

#[global] Instance exn_eq_dec : EqDecision exn.
Proof. solve_decision. Defined.

Definition result (A : Type) : Type := exn + A.

Abbreviation raise := (@inl exn _) (only parsing).
Abbreviation ret := (@inr exn _) (only parsing).
Definition bind {A B} (m : result A) (k : A → result B) : result B :=
  match m with inl e => inl e | inr a => k a end.

Notation "'do' x <- m ; k" := (bind m (λ x, k))
  (at level 10, x name, m at level 100, k at level 200).

(** ** Strings *)

(** [re.sub(r'[$,%]', '', s)] *)
Fixpoint strip_symbols (s : string) : string :=
  match s with
  | EmptyString => EmptyString
  | String a s' =>
      if bool_decide (a = "$"%char ∨ a = ","%char ∨ a = "%"%char)
      then strip_symbols s'
      else String a (strip_symbols s')
  end.

(** [str.upper] on the ASCII letters; other bytes are kept. *)
Definition upper_ascii (a : ascii) : ascii :=
  let n := nat_of_ascii a in
  if (97 <=? n)%nat && (n <=? 122)%nat then ascii_of_nat (n - 32) else a.

Fixpoint upper (s : string) : string :=
  match s with
  | EmptyString => EmptyString
  | String a s' => String (upper_ascii a) (upper s')
  end.

(** [sep.join(l)] *)
Definition join (sep : string) (l : list string) : string :=
  String.concat sep l.

(** ** What the script draws, in order *)

Inductive element :=
  | st_error (msg : string)
  | st_exception (e : exn)
  | st_warning (msg : string)
  | st_info (msg : string)
  | st_sidebar_warning (msg : string)
  | st_sidebar_success (msg : string)
  | st_sidebar_header (msg : string)
  | st_sidebar_multiselect (label : string) (options : list cell)
  | st_title (msg : string)
  | st_markdown (msg : string)
  | st_subheader (msg : string)
  | st_metric (label : string) (value : Q) (delta : option Q)
  | st_plotly_chart (kind : string) (data : DataFrame)
  | st_dataframe (data : DataFrame).

#[global] Instance element_eq_dec : EqDecision element.
Proof. solve_decision. Defined.

(** ** The pandas functions taken as given *)

Class Pandas := {
  (** what [pd.to_numeric] makes of one string, [None] when it cannot
      be read as a number (or spells a null, as "nan" does) *)
  to_number : string → option Q;
  (** [str(x)] for a number [x] *)
  num_str : Q → string;
  (** [astype(str)] spells a null "nan", and [to_numeric] reads that
      spelling back as a null *)
  to_number_nan : to_number "nan" = None
}.

Section Loader.
Context `{Pandas}.

(** [Series.astype(str)] on one element. *)
Definition astype_str (v : cell) : string :=
  match v with
  | NaN => "nan"
  | Str s => s
  | Num q => num_str q
  end.

(** [pd.to_numeric(_, errors='coerce')] on one element. *)
Definition to_numeric (v : cell) : cell :=
  match v with
  | NaN => NaN
  | Num q => Num q
  | Str s => match to_number s with Some q => Num q | None => NaN end
  end.

(** The [.str] accessor: pandas refuses it on a column that holds no
    string ([read_csv] gives such a column a numeric dtype). *)
Definition is_str (v : cell) : bool :=
  match v with Str _ => true | _ => false end.

Definition is_num (v : cell) : bool :=
  match v with Num _ => true | _ => false end.

Definition str_accessor (s : list cell) : result (list cell) :=
  if existsb is_str s then ret s else raise AttributeError.

(** [.str.upper()] on one element: null for what is not a string. *)
Definition str_upper (v : cell) : cell :=
  match v with Str s => Str (upper s) | _ => NaN end.

(** ** load_data (lines 21-83) *)

Definition numeric_cols : list string :=
  ["Shares"; "Cost of Shares"; "Current Price of Shares";
   "Capital Input"; "Current Value"; "% change"; "P/L"].

Definition all_expected_cols : list string :=
  ["Account"; "Ticker"; "Tag"; "Name"; "Type"; "Action"] ++ numeric_cols.

Definition cols_to_clean : list string :=
  ["Cost of Shares"; "Current Price of Shares"; "Capital Input";
   "Current Value"; "P/L"; "% change"].

Definition cols_to_zero_for_cash : list string :=
  ["Shares"; "Cost of Shares"; "Current Price of Shares"; "% change"; "P/L"].

(** [col in df.columns] *)
Definition has_col (df : DataFrame) (c : string) : bool :=
  bool_decide (c ∈ columns df).

(** line 44 *)
Definition missing_cols (df : DataFrame) : list string :=
  filter (λ c, has_col df c = false) all_expected_cols.

(** line 54 on one element: [astype(str)], then the symbols removed. *)
Definition strip_cell (v : cell) : cell := Str (strip_symbols (astype_str v)).

(** lines 51-54 *)
Definition clean_symbols (df : DataFrame) : DataFrame :=
  foldl (λ df col, if has_col df col then assign col strip_cell df else df)
        df cols_to_clean.

(** lines 57-58 *)
Definition coerce_numeric (df : DataFrame) : DataFrame :=
  foldl (λ df col, assign col to_numeric df) df numeric_cols.

(** line 65: [df['Type'].str.upper().fillna('') == 'CASH'] *)
Definition is_cash (v : cell) : bool :=
  bool_decide (fillna (Str "") (str_upper v) = Str "CASH").

(** lines 64-69 *)
Definition handle_cash (df : DataFrame) : result DataFrame :=
  if has_col df "Type" then
    do ty <- str_accessor (column "Type" df);
    let cash_mask := is_cash <$> ty in
    ret (foldl (λ df col,
                  if has_col df col
                  then loc_assign cash_mask col (fillna (Num 0)) df
                  else df)
               df cols_to_zero_for_cash)
  else ret df.

Definition msg_empty : string :=
  "The Google Sheet is empty or could not be read. Please verify the URL and sheet content.".

Definition msg_missing (missing : list string) : string :=
  String.append "The following required columns are missing from your sheet: "
                (join ", " missing).

Definition msg_exception : string :=
  "An error occurred while loading the data.".

(** The body of the [try] after [read_csv] returned [df]; the value is
    what is returned and what was drawn on the way. *)
Definition load_body (df : DataFrame) : result (DataFrame * list element) :=
  if df_empty df then ret (pd_DataFrame, [st_error msg_empty])
  else
    match missing_cols df with
    | (_ :: _) as missing => ret (pd_DataFrame, [st_error (msg_missing missing)])
    | [] =>
        let df := clean_symbols df in
        let df := coerce_numeric df in
        do df <- handle_cash df;
        let df := assign "Account" (fillna (Str "Unknown")) df in
        let df := assign "Type" (fillna (Str "Unknown")) df in
        let df := dropna ["Current Value"; "Capital Input"] df in
        ret (df, [])
    end.

(** [load_data], given what [pd.read_csv(url, ...)] did: raised, or
    returned a table. *)
Definition load_data (fetched : result DataFrame) : DataFrame * list element :=
  match bind fetched load_body with
  | inr out => out
  | inl e => (pd_DataFrame, [st_error msg_exception; st_exception e])
  end.


(** ** The cleaning told row by row (spec 4.1, steps 4 to 8)

    [clean_row] is what the spec says happens to one row; [retained]
    is the test of step 8.  [load_body_rows] below shows that the
    column-by-column passes of [load_body] compute exactly this. *)

Definition strip_row (r : Row) : Row :=
  foldl (λ r c, upd c strip_cell r) r cols_to_clean.

Definition coerce_row (r : Row) : Row :=
  foldl (λ r c, upd c to_numeric r) r numeric_cols.

Definition zero_cash_row (r : Row) : Row :=
  if is_cash (get "Type" r)
  then foldl (λ r c, upd c (fillna (Num 0)) r) r cols_to_zero_for_cash
  else r.

Definition fill_labels_row (r : Row) : Row :=
  upd "Type" (fillna (Str "Unknown")) (upd "Account" (fillna (Str "Unknown")) r).

Definition clean_row (r : Row) : Row :=
  fill_labels_row (zero_cash_row (coerce_row (strip_row r))).

(** Steps 4 and 5 on the cell under column [c]: the symbols stripped
    where the column is a currency or percentage one, then the
    coercion where the column is numeric. *)
Definition coerced (c : string) (v : cell) : cell :=
  let v := if decide (c ∈ cols_to_clean) then strip_cell v else v in
  if decide (c ∈ numeric_cols) then to_numeric v else v.

(** Steps 4 to 7, one cell at a time: what the cleaned row holds
    under [c]. *)
Definition cleaned_cell (c : string) (r : Row) : cell :=
  let v := coerced c (get c r) in
  let v := if decide (c ∈ cols_to_zero_for_cash)
           then if is_cash (get "Type" r) then fillna (Num 0) v else v
           else v in
  if decide (c = "Account" ∨ c = "Type") then fillna (Str "Unknown") v else v.

Definition retained (r : Row) : bool :=
  notna (get "Current Value" r) && notna (get "Capital Input" r).

(** The load went through: a table came back and nothing was drawn. *)
Definition loaded (fetched : result DataFrame) (out : DataFrame) : Prop :=
  load_data fetched = (out, []).

(** ** Filters and KPIs (lines 108-199) *)

(** Output so far, and either an uncaught exception or a value. *)
Definition ui (A : Type) : Type := (list element * result A)%type.

Definition draw (e : list element) : ui unit := (e, ret tt).
Definition lift {A} (r : result A) : ui A := ([], r).
Definition ui_bind {A B} (m : ui A) (k : A → ui B) : ui B :=
  match m with
  | (o, inl e) => (o, inl e)
  | (o, inr a) => let '(o', r) := k a in (o ++ o', r)
  end.

Notation "'run' x <- m ; k" := (ui_bind m (λ x, k))
  (at level 10, x name, m at level 100, k at level 200).
Notation "m ;; k" := (ui_bind m (λ _, k))
  (at level 100, k at level 200, right associativity).

(** The page after the run: an uncaught exception is shown last. *)
Definition page (m : ui unit) : list element :=
  match m with
  | (o, inl e) => o ++ [st_exception e]
  | (o, inr _) => o
  end.

(** [df[c]] *)
Definition getitem (c : string) (df : DataFrame) : result (list cell) :=
  if bool_decide (c ∈ columns df) then ret (column c df) else raise (KeyError c).

(** Equality of two values as [isin] and [unique] see it. *)
Definition cell_eqb (a b : cell) : bool :=
  match a, b with
  | NaN, NaN => true
  | Str s, Str t => bool_decide (s = t)
  | Num p, Num q => Qeq_bool p q
  | _, _ => false
  end.

(** [Series.isin(values)] on one element. *)
Definition isin (values : list cell) (v : cell) : bool :=
  existsb (cell_eqb v) values.

(** [Series.unique()]: the values in order of first appearance. *)
Definition unique (s : list cell) : list cell :=
  foldl (λ seen v, if isin seen v then seen else seen ++ [v]) [] s.

(** [df[mask]] *)
Definition boolean_index (mask : list bool) (df : DataFrame) : DataFrame :=
  mkDF (columns df) (filter (λ p, p.1 = true) (zip mask (rows df))).*2.

(** [Series.sum()]: nulls count as zero. *)
Definition as_number (v : cell) : result Q :=
  match v with
  | NaN => ret 0%Q
  | Num q => ret q
  | Str _ => raise TypeError
  end.

Definition sum_step (acc : result Q) (v : cell) : result Q :=
  do a <- acc; do x <- as_number v; ret (a + x)%Q.

Definition series_sum (s : list cell) : result Q :=
  foldl sum_step (ret 0%Q) s.

(** The sum as the spec writes it: the number a cell counts for (a
    null counts for nothing), added up over the rows. *)
Definition cell_value (v : cell) : Q :=
  match v with Num q => q | _ => 0%Q end.

Definition sigma (c : string) (rs : list Row) : Q :=
  foldr (λ r acc, (cell_value (get c r) + acc)%Q) 0%Q rs.

(** [df[df['Type'].str.upper() != 'CASH']] (lines 147, 178, 186) *)
Definition not_cash (v : cell) : bool :=
  negb (bool_decide (str_upper v = Str "CASH")).

Definition without_cash (df : DataFrame) : result DataFrame :=
  do ty <- getitem "Type" df;
  do ty <- str_accessor ty;
  ret (boolean_index (not_cash <$> ty) df).

(** [a / b] *)
Definition py_div (a b : Q) : result Q :=
  if Qeq_bool b 0 then raise ZeroDivisionError else ret (a / b)%Q.

(** lines 148-151 *)
Definition pct_change_on (total_pl invested_capital : Q) : result Q :=
  if Qlt_le_dec 0 invested_capital
  then do d <- py_div total_pl invested_capital; ret (d * 100)%Q
  else ret 0%Q.

Record kpis := mkKPI {
  total_value : Q;
  total_pl : Q;
  total_capital_input : Q;
  invested_capital : Q;
  overall_pct_change : Q
}.

(** lines 140-151 *)
Definition compute_kpis (filtered_df : DataFrame) : result kpis :=
  do cv <- getitem "Current Value" filtered_df;
  do total_value <- series_sum cv;
  do pl <- getitem "P/L" filtered_df;
  do total_pl <- series_sum pl;
  do ci <- getitem "Capital Input" filtered_df;
  do total_capital_input <- series_sum ci;
  do invested <- without_cash filtered_df;
  do ici <- getitem "Capital Input" invested;
  do invested_capital <- series_sum ici;
  do pct <- pct_change_on total_pl invested_capital;
  ret (mkKPI total_value total_pl total_capital_input invested_capital pct).

Definition msg_no_match : string :=
  "No data matches the current filter settings. Please adjust the filters in the sidebar.".

Definition msg_welcome : string :=
  "Welcome! Please provide your Google Sheet URL and click 'Load Portfolio Data' in the sidebar to get started.".

(** lines 136-194; each chart is recorded with the table it is drawn
    from: what plotly makes of that table, an exception it may raise
    included, is not modelled. *)
Definition dashboard (filtered_df : DataFrame) : ui unit :=
  draw [st_title "📈 Stock Portfolio Dashboard";
        st_markdown "A real-time view of your investment portfolio."];;
  run k <- lift (compute_kpis filtered_df);
  draw [st_metric "Total Portfolio Value (incl. Cash)" (total_value k) None;
        st_metric "Total Profit/Loss (on Investments)" (total_pl k) (Some (overall_pct_change k));
        st_metric "Total Capital Input" (total_capital_input k) None;
        st_markdown "---";
        st_subheader "Portfolio Value by Ticker";
        st_plotly_chart "bar" filtered_df;
        st_subheader "Portfolio Distribution by Type"];;
  run pie_df <- lift (without_cash filtered_df);
  draw [st_plotly_chart "pie" pie_df;
        st_subheader "Portfolio Composition by Company"];;
  run treemap_df <- lift (without_cash filtered_df);
  draw [st_plotly_chart "treemap" treemap_df;
        st_subheader "Detailed Portfolio View";
        st_dataframe filtered_df].

(** lines 129-133 *)
Definition filter_view (selected_account selected_type : list cell)
    (df : DataFrame) : result DataFrame :=
  do acc <- getitem "Account" df;
  do ty <- getitem "Type" df;
  ret (boolean_index
         (zip_with andb (isin selected_account <$> acc) (isin selected_type <$> ty))
         df).

(** ** The session and one run of the script *)

Record session_state := mkSession { ss_df : DataFrame; data_loaded : bool }.

(** lines 14-17 *)
Definition initial_session : session_state := mkSession pd_DataFrame false.

(** What the user did before this run. *)
Record widgets := mkWidgets {
  sheet_url : string;
  load_clicked : bool;
  selected_account : list cell;
  selected_type : list cell
}.

(** lines 92-106; [fetched] is what [pd.read_csv(sheet_url)] does when
    called.  The cache is cleared just before the call (line 99), so
    [load_data] always runs. *)
Definition load_button (w : widgets) (fetched : result DataFrame)
    (s : session_state) : session_state * list element :=
  if load_clicked w then
    if bool_decide (sheet_url w = "") then
      (mkSession (ss_df s) false,
       [st_sidebar_warning "Please enter the Google Sheet URL."])
    else
      let '(df, out) := load_data fetched in
      if negb (df_empty df)
      then (mkSession df true, out ++ [st_sidebar_success "Data loaded successfully!"])
      else (mkSession df false, out)
  else (s, []).

(** lines 109-199 *)
Definition main_display (w : widgets) (s : session_state) : ui unit :=
  if data_loaded s then
    let df := ss_df s in
    draw [st_sidebar_header "Display Filters"];;
    run accounts <- lift (getitem "Account" df);
    draw [st_sidebar_multiselect "Filter by Account" (unique accounts)];;
    run types <- lift (getitem "Type" df);
    draw [st_sidebar_multiselect "Filter by Type" (unique types)];;
    run filtered_df <- lift (filter_view (selected_account w) (selected_type w) df);
    if negb (df_empty filtered_df)
    then dashboard filtered_df
    else draw [st_warning msg_no_match]
  else draw [st_info msg_welcome].

Definition script (w : widgets) (fetched : result DataFrame)
    (s : session_state) : session_state * list element :=
  let '(s', out) := load_button w fetched s in
  (s', out ++ page (main_display w s')).

(** What a load leaves in the session is told by the fetched input
    alone. *)
Definition session_after_load (fetched : result DataFrame) : session_state :=
  let df := (load_data fetched).1 in mkSession df (negb (df_empty df)).

(** What holds of every session the script can reach: when the flag
    says data is loaded, the table has rows and every required column. *)
Definition session_ok (s : session_state) : Prop :=
  data_loaded s = true →
  df_empty (ss_df s) = false
  ∧ Forall (λ c, c ∈ columns (ss_df s)) all_expected_cols.

(** The selection a multiselect starts with: every option. *)
Definition default_selection (c : string) (df : DataFrame) : list cell :=
  unique (column c df).

End Loader.

(** ** An instance that runs: plain decimal notation

    [decimal_pandas] reads an optional sign, digits and an optional
    fraction ("500", "-12.5", "+3."), and prints an integer as its
    digits and any other number with at most 17 fraction digits. *)

Module Decimal.

Definition digit_of (a : ascii) : option Z :=
  let n := nat_of_ascii a in
  if (48 <=? n)%nat && (n <=? 57)%nat then Some (Z.of_nat (n - 48)) else None.

Fixpoint digits (s : string) (acc : Z) : option Z :=
  match s with
  | EmptyString => Some acc
  | String a s' =>
      match digit_of a with
      | Some d => digits s' (10 * acc + d)%Z
      | None => None
      end
  end.

(** The text before the first ".", and the text after it if there is one. *)
Fixpoint split_dot (s : string) : string * option string :=
  match s with
  | EmptyString => (EmptyString, None)
  | String a s' =>
      if bool_decide (a = "."%char) then (EmptyString, Some s')
      else let '(ip, fp) := split_dot s' in (String a ip, fp)
  end.

Definition parse_unsigned (s : string) : option Q :=
  let '(ip, fp) := split_dot s in
  let f := default EmptyString fp in
  if bool_decide (String.append ip f = EmptyString) then None
  else
    match digits (String.append ip f) 0 with
    | Some n => Some (n # Z.to_pos (10 ^ Z.of_nat (String.length f)))
    | None => None
    end.

Definition parse (s : string) : option Q :=
  match s with
  | String a s' =>
      if bool_decide (a = "-"%char) then Qopp <$> parse_unsigned s'
      else if bool_decide (a = "+"%char) then parse_unsigned s'
      else parse_unsigned s
  | EmptyString => None
  end.

Fixpoint fraction (fuel : nat) (r d : Z) : string :=
  match fuel with
  | O => EmptyString
  | S fuel' =>
      if (r =? 0)%Z then EmptyString
      else String.append (pretty (10 * r / d)%Z) (fraction fuel' (10 * r mod d)%Z d)
  end.

Definition show (q : Q) : string :=
  let n := Z.abs (Qnum q) in
  let d := Z.pos (Qden q) in
  String.append (if (Qnum q <? 0)%Z then "-" else "")
    (String.append (pretty (n / d)%Z)
       (if (n mod d =? 0)%Z then EmptyString
        else String.append "." (fraction 17 (n mod d)%Z d))).

End Decimal.

#[global] Instance decimal_pandas : Pandas :=
  {| to_number := Decimal.parse; num_str := Decimal.show;
     to_number_nan := eq_refl |}.

(** ** Sample tables

    A sheet of five holdings as [read_csv] hands it over: a cash
    position with blank share columns, a stock, a fund with a blank
    P/L, a stock with a blank Current Value, and an overdrawn cash
    account. *)

Definition row_of (l : list (string * cell)) : Row := list_to_map l.

Definition cash_row : Row :=
  row_of [("Account", Str "Broker"); ("Ticker", Str "USD"); ("Name", Str "Dollars");
          ("Type", Str "Cash"); ("Shares", NaN); ("Cost of Shares", NaN);
          ("Capital Input", Str "$500"); ("Current Value", Str "$500")].

Definition stock_row : Row :=
  row_of [("Account", Str "Broker"); ("Ticker", Str "ACME"); ("Name", Str "Acme Corp");
          ("Type", Str "Stock"); ("Action", Str "Buy"); ("Shares", Str "10");
          ("Cost of Shares", Str "$100.50"); ("Current Price of Shares", Str "$120");
          ("Capital Input", Str "$1,005"); ("Current Value", Str "$1,200");
          ("% change", Str "19.4%"); ("P/L", Str "$195")].

Definition fund_row : Row :=
  row_of [("Account", Str "Pension"); ("Ticker", Str "WRLD"); ("Name", Str "World Fund");
          ("Type", Str "ETF"); ("Shares", Str "4"); ("Capital Input", Str "$400");
          ("Current Value", Str "$380"); ("P/L", NaN)].

Definition no_value_row : Row :=
  row_of [("Account", Str "Broker"); ("Ticker", Str "GONE"); ("Type", Str "Stock");
          ("Shares", Str "3"); ("Capital Input", Str "$30"); ("Current Value", NaN);
          ("P/L", Str "$1")].

Definition overdrawn_row : Row :=
  row_of [("Account", Str "Margin"); ("Ticker", Str "USD"); ("Type", Str "CASH");
          ("Capital Input", Str "0"); ("Current Value", Str "-$200")].

Definition sample : DataFrame :=
  mkDF all_expected_cols
       [cash_row; stock_row; fund_row; no_value_row; overdrawn_row].

Definition sample_clean : DataFrame := Eval vm_compute in (load_data (inr sample)).1.

Definition sample_kpis : kpis :=
  Eval vm_compute in
    match compute_kpis sample_clean with
    | inr k => k
    | inl _ => mkKPI 0 0 0 0 0
    end.

(** The same sheet with its columns in the opposite order. *)
Definition sample_reversed : DataFrame :=
  mkDF (reverse all_expected_cols) (rows sample).

(** A sheet with a header and no data row, the P/L column absent. *)
Definition header_only : DataFrame :=
  mkDF ["Account"; "Ticker"; "Tag"; "Name"; "Type"; "Action"; "Shares";
        "Cost of Shares"; "Current Price of Shares"; "Capital Input";
        "Current Value"; "% change"] [].

(** The sample sheet without its P/L column. *)
Definition sample_without_PL : DataFrame :=
  mkDF (columns header_only) (delete "P/L" <$> rows sample).

(** A session in which the sample sheet is loaded, and a press of the
    load button with a URL. *)
Definition loaded_session : session_state := mkSession sample_clean true.

Definition press_load : widgets :=
  mkWidgets "https://docs.google.com/spreadsheets/d/e/sheet/pub?output=csv" true
            [Str "Broker"] [Str "Stock"].

Definition select_no_account : widgets :=
  mkWidgets "https://docs.google.com/spreadsheets/d/e/sheet/pub?output=csv" false
            [] [Str "Stock"; Str "Cash"].

(** The load button pressed with the URL field empty. *)
Definition press_with_no_url : widgets := mkWidgets "" true [] [].

(** The load button pressed with every account and every type of the
    cleaned sample selected. *)
Definition press_load_all : widgets :=
  mkWidgets "https://docs.google.com/spreadsheets/d/e/sheet/pub?output=csv" true
            [Str "Broker"; Str "Pension"; Str "Margin"]
            [Str "Cash"; Str "Stock"; Str "ETF"; Str "CASH"].

(** A sheet whose only row has no Current Value. *)
Definition sample_no_value : DataFrame := mkDF all_expected_cols [no_value_row].

(** The stock of the sample with its Capital Input typed without signs. *)
Definition stock_row_plain : Row := <["Capital Input" := Str "1005"]> stock_row.

(** ** Several runs of the script

    Streamlit runs the script again at every action of the user; each
    run starts from the session the run before left.  A run is told
    by what the user did and by what [read_csv] would do if called. *)

Definition runs `{Pandas} (l : list (widgets * result DataFrame))
    (s : session_state) : session_state :=
  foldl (λ s p, (script p.1 p.2 s).1) s l.

(** ** The series behind the bar chart and the pie chart (lines 168, 179)

    [groupby] makes one group for each value of the key column that is
    not null and lists the groups in the order of their keys (numbers
    before strings); [sum] adds up each group with a null counting for
    nothing.  [sort_values] is modelled by a merge sort: between bars
    of equal value pandas promises no order, and nothing below depends
    on one. *)

Definition key_leb (a b : cell) : bool :=
  match a, b with
  | Num p, Num q => Qle_bool p q
  | Num _, _ => true
  | Str s, Str t => String.leb s t
  | Str _, Num _ => false
  | Str _, NaN => true
  | NaN, NaN => true
  | NaN, _ => false
  end.

Definition key_le (a b : cell) : Prop := key_leb a b = true.

#[global] Instance key_le_dec : RelDecision key_le.
Proof. intros a b. unfold key_le. apply _. Defined.

(** The keys of [df.groupby(by)]. *)
Definition group_keys (key : string) (df : DataFrame) : list cell :=
  merge_sort key_le (unique (filter (λ v, isna v = false) (column key df))).

(** The rows of the group of key [k]. *)
Definition group_rows (key : string) (k : cell) (df : DataFrame) : list Row :=
  filter (λ r, cell_eqb (get key r) k = true) (rows df).

Fixpoint traverse {A B} (f : A → result B) (l : list A) : result (list B) :=
  match l with
  | [] => ret []
  | a :: l => do b <- f a; do bs <- traverse f l; ret (b :: bs)
  end.

(** [df.groupby(by)[val].sum()] *)
Definition groupby_sum (key val : string) (df : DataFrame) : result (list (cell * Q)) :=
  do keys <- getitem key df;
  do vals <- getitem val df;
  traverse (λ k, do q <- series_sum (get val <$> group_rows key k df); ret (k, q))
           (group_keys key df).

(** The order of [sort_values(ascending=False)]: the larger value first. *)
Definition value_ge (a b : cell * Q) : Prop := Qle_bool b.2 a.2 = true.

#[global] Instance value_ge_dec : RelDecision value_ge.
Proof. intros a b. unfold value_ge. apply _. Defined.

(** [Series.sort_values(ascending=False)] *)
Definition sort_values_descending (s : list (cell * Q)) : list (cell * Q) :=
  merge_sort value_ge s.

(** line 168 *)
Definition value_by_ticker (filtered_df : DataFrame) : result (list (cell * Q)) :=
  do g <- groupby_sum "Ticker" "Current Value" filtered_df;
  ret (sort_values_descending g).

(** lines 178-179 *)
Definition type_distribution (filtered_df : DataFrame) : result (list (cell * Q)) :=
  do pie_df <- without_cash filtered_df;
  groupby_sum "Type" "Current Value" pie_df.

(** What lines 137-164 draw before the first chart is built, given the
    KPIs. *)
Definition dashboard_head (k : kpis) : list element :=
  [st_title "📈 Stock Portfolio Dashboard";
   st_markdown "A real-time view of your investment portfolio.";
   st_metric "Total Portfolio Value (incl. Cash)" (total_value k) None;
   st_metric "Total Profit/Loss (on Investments)" (total_pl k)
             (Some (overall_pct_change k));
   st_metric "Total Capital Input" (total_capital_input k) None;
   st_markdown "---";
   st_subheader "Portfolio Value by Ticker"].

(** A session whose flag, when set, tells the truth: the table is one
    a load returned with nothing drawn, and it has rows. *)
Definition holds_loaded_table `{Pandas} (s : session_state) : Prop :=
  data_loaded s = true →
  ∃ f, loaded f (ss_df s) ∧ df_empty (ss_df s) = false.

(** * Properties *)

Section Properties.
Context `{Pandas}.

(** ** Rows and columns *)

Lemma get_upd c c' f (r : Row) :
  get c (upd c' f r) = if decide (c' = c) then f (get c' r) else get c r.
Proof.
  unfold get, upd. rewrite lookup_insert. by case_decide; subst.
Qed.

Lemma get_upd_eq c f (r : Row) : get c (upd c f r) = f (get c r).
Proof. rewrite get_upd. by case_decide. Qed.

Lemma get_upd_ne c c' f (r : Row) : c' ≠ c → get c (upd c' f r) = get c r.
Proof. intros. rewrite get_upd. by case_decide. Qed.

Lemma assign_columns c f df : columns (assign c f df) = columns df.
Proof. done. Qed.

Lemma df_eta df : mkDF (columns df) (rows df) = df.
Proof. by destruct df. Qed.

(** A loop of guarded column assignments is one pass over the rows. *)
Lemma foldl_assign_guarded (f : cell → cell) cs df :
  Forall (λ c, c ∈ columns df) cs →
  foldl (λ df c, if has_col df c then assign c f df else df) df cs
  = mkDF (columns df) ((λ r, foldl (λ r c, upd c f r) r cs) <$> rows df).
Proof.
  revert df. induction cs as [|c cs IH]; intros df Hcs; simpl.
  - by rewrite list_fmap_id, df_eta.
  - inversion_clear Hcs as [|?? Hc Hcs'].
    unfold has_col at 2. rewrite bool_decide_eq_true_2 by done.
    rewrite IH by done. simpl. by rewrite <- list_fmap_compose.
Qed.

Lemma foldl_assign (f : cell → cell) cs df :
  foldl (λ df c, assign c f df) df cs
  = mkDF (columns df) ((λ r, foldl (λ r c, upd c f r) r cs) <$> rows df).
Proof.
  revert df. induction cs as [|c cs IH]; intros df; simpl.
  - by rewrite list_fmap_id, df_eta.
  - rewrite IH. simpl. by rewrite <- list_fmap_compose.
Qed.

Lemma loc_assign_fmap (m : Row → bool) c f cols (g : Row → Row) (rs : list Row) :
  loc_assign (m <$> rs) c f (mkDF cols (g <$> rs))
  = mkDF cols ((λ r, if m r then upd c f (g r) else g r) <$> rs).
Proof.
  unfold loc_assign. simpl.
  by rewrite zip_with_fmap_l, zip_with_fmap_r, zip_with_diag.
Qed.

(** The cash loop: the mask is taken once, from the rows as they were
    before the loop, and every pass uses it. *)
Lemma foldl_loc_assign (m : Row → bool) (f : cell → cell) cs cols
    (g : Row → Row) (rs : list Row) :
  Forall (λ c, c ∈ cols) cs →
  foldl (λ df c, if has_col df c then loc_assign (m <$> rs) c f df else df)
        (mkDF cols (g <$> rs)) cs
  = mkDF cols ((λ r, if m r then foldl (λ r c, upd c f r) (g r) cs else g r) <$> rs).
Proof.
  revert g. induction cs as [|c cs IH]; intros g Hcs; simpl.
  - f_equal. apply list_fmap_ext. intros ? r _. by destruct (m r).
  - inversion_clear Hcs as [|?? Hc Hcs'].
    unfold has_col at 2. simpl. rewrite bool_decide_eq_true_2 by done.
    rewrite loc_assign_fmap.
    rewrite (IH (λ r, if m r then upd c f (g r) else g r)) by done.
    f_equal. apply list_fmap_ext. intros ? r _. by destruct (m r).
Qed.

Lemma get_foldl_upd c f cs (r : Row) :
  NoDup cs →
  get c (foldl (λ r c', upd c' f r) r cs)
  = if decide (c ∈ cs) then f (get c r) else get c r.
Proof.
  revert r. induction cs as [|c' cs IH]; intros r Hnd; simpl.
  - destruct (decide (c ∈ [])) as [Hin|Hin]; [by apply elem_of_nil in Hin | done].
  - apply NoDup_cons in Hnd as [Hc' Hnd]. rewrite IH by done.
    rewrite !get_upd.
    destruct (decide (c' = c)) as [->|Hne].
    + rewrite (decide_False (P := c ∈ cs)) by done.
      rewrite (decide_True (P := c ∈ c :: cs)) by apply list_elem_of_here.
      done.
    + destruct (decide (c ∈ cs)) as [Hin|Hin].
      * by rewrite (decide_True (P := c ∈ c' :: cs)) by (by apply list_elem_of_further).
      * rewrite (decide_False (P := c ∈ c' :: cs)); [done|].
        intros [?|?]%elem_of_cons; congruence.
Qed.

Lemma NoDup_cols_to_clean : NoDup cols_to_clean.
Proof. apply (bool_decide_unpack _). by vm_compute. Qed.

Lemma NoDup_numeric_cols : NoDup numeric_cols.
Proof. apply (bool_decide_unpack _). by vm_compute. Qed.

Lemma NoDup_cols_to_zero_for_cash : NoDup cols_to_zero_for_cash.
Proof. apply (bool_decide_unpack _). by vm_compute. Qed.

(** Stripping and coercion leave the Type column as it was. *)
Lemma get_Type_coerced (r : Row) :
  get "Type" (coerce_row (strip_row r)) = get "Type" r.
Proof.
  unfold coerce_row, strip_row.
  rewrite get_foldl_upd by apply NoDup_numeric_cols.
  rewrite get_foldl_upd by apply NoDup_cols_to_clean.
  done.
Qed.

(** Settle every [decide] of a closed proposition in the goal. *)
Ltac decide_closed :=
  repeat match goal with
    | |- context [decide ?P] =>
        first
          [ rewrite (decide_True (P := P))
              by (apply (bool_decide_unpack _); by vm_compute)
          | rewrite (decide_False (P := P))
              by (apply (bool_decide_unpack _); by vm_compute) ]
    end.

Lemma numeric_cols_expected : numeric_cols ⊆ all_expected_cols.
Proof. apply (bool_decide_unpack _). by vm_compute. Qed.

Lemma cols_to_clean_expected : cols_to_clean ⊆ all_expected_cols.
Proof. apply (bool_decide_unpack _). by vm_compute. Qed.

Lemma cols_to_zero_expected : cols_to_zero_for_cash ⊆ all_expected_cols.
Proof. apply (bool_decide_unpack _). by vm_compute. Qed.

Lemma cols_to_zero_numeric : cols_to_zero_for_cash ⊆ numeric_cols.
Proof. apply (bool_decide_unpack _). by vm_compute. Qed.

Lemma Type_expected : "Type" ∈ all_expected_cols.
Proof. apply (bool_decide_unpack _). by vm_compute. Qed.

Lemma Account_expected : "Account" ∈ all_expected_cols.
Proof. apply (bool_decide_unpack _). by vm_compute. Qed.

Lemma get_clean_row_unfold c (r : Row) :
  get c (clean_row r)
  = let v := if decide (c ∈ cols_to_zero_for_cash)
             then (if is_cash (get "Type" r) then fillna (Num 0) else id)
                    (if decide (c ∈ numeric_cols)
                     then to_numeric (if decide (c ∈ cols_to_clean)
                                      then strip_cell (get c r) else get c r)
                     else if decide (c ∈ cols_to_clean)
                          then strip_cell (get c r) else get c r)
             else if decide (c ∈ numeric_cols)
                  then to_numeric (if decide (c ∈ cols_to_clean)
                                   then strip_cell (get c r) else get c r)
                  else if decide (c ∈ cols_to_clean)
                       then strip_cell (get c r) else get c r in
    if decide ("Type" = c) then fillna (Str "Unknown") (get "Type" r)
    else if decide ("Account" = c) then fillna (Str "Unknown") (get "Account" r)
    else v.
Proof.
  unfold clean_row, fill_labels_row.
  rewrite (get_upd c "Type"). rewrite (get_upd "Type" "Account").
  rewrite (get_upd c "Account").
  assert (∀ c', c' ∉ cols_to_zero_for_cash → c' ∉ numeric_cols → c' ∉ cols_to_clean →
            get c' (zero_cash_row (coerce_row (strip_row r))) = get c' r) as Hother.
  { intros c' H1 H2 H3. unfold zero_cash_row, coerce_row, strip_row.
    destruct (is_cash _).
    - rewrite get_foldl_upd by apply NoDup_cols_to_zero_for_cash.
      rewrite decide_False by done.
      rewrite get_foldl_upd by apply NoDup_numeric_cols.
      rewrite decide_False by done.
      rewrite get_foldl_upd by apply NoDup_cols_to_clean.
      by rewrite decide_False by done.
    - rewrite get_foldl_upd by apply NoDup_numeric_cols.
      rewrite decide_False by done.
      rewrite get_foldl_upd by apply NoDup_cols_to_clean.
      by rewrite decide_False by done. }
  rewrite (decide_False (P := "Account" = "Type")) by done.
  rewrite !(Hother "Type") by (apply (bool_decide_unpack _); by vm_compute).
  rewrite !(Hother "Account") by (apply (bool_decide_unpack _); by vm_compute).
  destruct (decide ("Type" = c)) as [|_]; [done|].
  destruct (decide ("Account" = c)) as [|_]; [done|].
  cbv zeta. unfold zero_cash_row. rewrite get_Type_coerced.
  destruct (is_cash (get "Type" r)).
  - rewrite get_foldl_upd by apply NoDup_cols_to_zero_for_cash.
    unfold coerce_row. rewrite get_foldl_upd by apply NoDup_numeric_cols.
    unfold strip_row. rewrite get_foldl_upd by apply NoDup_cols_to_clean.
    by repeat destruct (decide _).
  - unfold coerce_row. rewrite get_foldl_upd by apply NoDup_numeric_cols.
    unfold strip_row. rewrite get_foldl_upd by apply NoDup_cols_to_clean.
    by repeat destruct (decide _).
Qed.

(** [clean_row], read one column at a time. *)
Lemma get_clean_row c (r : Row) : get c (clean_row r) = cleaned_cell c r.
Proof.
  rewrite get_clean_row_unfold. unfold cleaned_cell, coerced. cbv zeta.
  destruct (decide ("Type" = c)) as [<-|HT].
  { by decide_closed. }
  destruct (decide ("Account" = c)) as [<-|HA].
  { by decide_closed. }
  rewrite (decide_False (P := c = "Account" ∨ c = "Type"))
    by (intros [?|?]; congruence).
  destruct (decide (c ∈ cols_to_zero_for_cash)) as [Hz|Hz];
    destruct (decide (c ∈ numeric_cols)) as [Hn|Hn];
    destruct (decide (c ∈ cols_to_clean)) as [Hc|Hc];
    by try destruct (is_cash _).
Qed.

(** ** The schema check *)

Lemma elem_of_missing_cols df c :
  c ∈ missing_cols df ↔ c ∈ all_expected_cols ∧ c ∉ columns df.
Proof.
  unfold missing_cols, has_col. rewrite list_elem_of_filter.
  rewrite bool_decide_eq_false. tauto.
Qed.

Lemma missing_cols_nil df :
  missing_cols df = [] ↔ Forall (λ c, c ∈ columns df) all_expected_cols.
Proof.
  rewrite Forall_forall. split.
  - intros Hnil c Hc. destruct (decide (c ∈ columns df)) as [|Hn]; [done|].
    assert (c ∈ missing_cols df) as Hin by (by apply elem_of_missing_cols).
    rewrite Hnil in Hin. by apply elem_of_nil in Hin.
  - intros Hall. destruct (missing_cols df) as [|c l] eqn:E; [done|].
    assert (c ∈ missing_cols df) as Hin by (rewrite E; apply list_elem_of_here).
    apply elem_of_missing_cols in Hin as [Hc Hn]. by destruct Hn; apply Hall.
Qed.

Lemma expected_sub (cs : list string) df :
  missing_cols df = [] → cs ⊆ all_expected_cols → Forall (λ c, c ∈ columns df) cs.
Proof.
  intros Hm%missing_cols_nil Hsub. rewrite Forall_forall in *. auto.
Qed.

Lemma has_col_Type df cols rs :
  missing_cols df = [] → cols = columns df → has_col (mkDF cols rs) "Type" = true.
Proof.
  intros Hmiss ->. unfold has_col. simpl. apply bool_decide_eq_true_2.
  apply missing_cols_nil in Hmiss. rewrite Forall_forall in Hmiss.
  apply Hmiss, Type_expected.
Qed.

(** ** The column passes of [load_body] compute [clean_row] on every row *)

Lemma retained_dropna (r : Row) :
  forallb (λ c, notna (get c r)) ["Current Value"; "Capital Input"] = true
  ↔ retained r = true.
Proof. unfold retained. simpl. by rewrite andb_true_r. Qed.

Lemma clean_symbols_rows df :
  missing_cols df = [] →
  clean_symbols df = mkDF (columns df) (strip_row <$> rows df).
Proof.
  intros Hmiss. unfold clean_symbols.
  by rewrite foldl_assign_guarded
    by (apply expected_sub; [done|apply cols_to_clean_expected]).
Qed.

Lemma coerce_numeric_rows df :
  coerce_numeric df = mkDF (columns df) (coerce_row <$> rows df).
Proof. unfold coerce_numeric. by rewrite foldl_assign. Qed.

Lemma handle_cash_rows df cols (g : Row → Row) :
  missing_cols df = [] → cols = columns df →
  (∀ r, get "Type" (g r) = get "Type" r) →
  handle_cash (mkDF cols (g <$> rows df))
  = if existsb is_str (column "Type" df)
    then ret (mkDF cols ((zero_cash_row ∘ g) <$> rows df))
    else raise AttributeError.
Proof.
  intros Hmiss -> Hg. unfold handle_cash.
  rewrite (has_col_Type df) by done.
  unfold column, str_accessor. cbn [rows].
  rewrite <- list_fmap_compose.
  rewrite (list_fmap_ext _ (get "Type") (rows df)) by (intros ? r _; apply Hg).
  destruct (existsb is_str (get "Type" <$> rows df)); [|done].
  cbn [bind]. f_equal.
  rewrite <- list_fmap_compose.
  rewrite (foldl_loc_assign (λ r, is_cash (get "Type" r)))
    by (apply expected_sub; [done|apply cols_to_zero_expected]).
  f_equal. apply list_fmap_ext. intros ? r _.
  unfold zero_cash_row, compose. by rewrite Hg.
Qed.

Lemma load_body_eq df :
  df_empty df = false →
  missing_cols df = [] →
  load_body df
  = if existsb is_str (column "Type" df)
    then ret (mkDF (columns df)
                (filter (λ r, retained r = true) (clean_row <$> rows df)), [])
    else raise AttributeError.
Proof.
  intros Hne Hmiss. unfold load_body. rewrite Hne, Hmiss. cbv zeta.
  rewrite clean_symbols_rows, coerce_numeric_rows by done. cbn [rows columns].
  rewrite <- list_fmap_compose.
  rewrite (handle_cash_rows df) by (done || apply get_Type_coerced).
  destruct (existsb is_str (column "Type" df)); [|done].
  cbn [bind]. unfold assign, dropna. cbn [rows columns].
  rewrite <- !list_fmap_compose.
  rewrite (list_fmap_ext _ clean_row (rows df))
    by (intros ? r _; unfold clean_row, fill_labels_row, compose; reflexivity).
  generalize (clean_row <$> rows df). intros l.
  by rewrite (list_filter_iff _ (λ r, retained r = true)) by apply retained_dropna.
Qed.

Lemma load_body_rows df :
  df_empty df = false →
  missing_cols df = [] →
  existsb is_str (column "Type" df) = true →
  load_body df
  = ret (mkDF (columns df) (filter (λ r, retained r = true) (clean_row <$> rows df)), []).
Proof. intros. rewrite load_body_eq by done. by destruct (existsb _ _). Qed.

(** What a load that went through looked like. *)
Lemma loaded_inv fetched out :
  loaded fetched out →
  ∃ raw, fetched = inr raw ∧ df_empty raw = false ∧ missing_cols raw = [] ∧
         existsb is_str (column "Type" raw) = true ∧
         out = mkDF (columns raw) (filter (λ r, retained r = true) (clean_row <$> rows raw)).
Proof.
  unfold loaded, load_data. destruct fetched as [e|raw]; simpl; [done|].
  intros Hl. exists raw.
  destruct (df_empty raw) eqn:Hne.
  { unfold load_body in Hl. by rewrite Hne in Hl. }
  destruct (missing_cols raw) as [|c l] eqn:Hmiss.
  2: { unfold load_body in Hl. by rewrite Hne, Hmiss in Hl. }
  rewrite load_body_eq in Hl by done.
  destruct (existsb is_str (column "Type" raw)); [|done].
  by simplify_eq.
Qed.

Lemma loaded_intro raw :
  df_empty raw = false → missing_cols raw = [] →
  existsb is_str (column "Type" raw) = true →
  loaded (inr raw)
    (mkDF (columns raw) (filter (λ r, retained r = true) (clean_row <$> rows raw))).
Proof.
  intros. unfold loaded, load_data. simpl. by rewrite load_body_rows.
Qed.

(** ** What the cleaned table holds *)

Lemma to_numeric_num v : isna (to_numeric v) = false → ∃ q, to_numeric v = Num q.
Proof.
  destruct v as [|s|q]; simpl; [done| |by eauto].
  destruct (to_number s); [by eauto|done].
Qed.

Lemma cleaned_Current_Value (r : Row) :
  get "Current Value" (clean_row r) = to_numeric (strip_cell (get "Current Value" r)).
Proof. rewrite get_clean_row. unfold cleaned_cell, coerced. by decide_closed. Qed.

Lemma cleaned_Capital_Input (r : Row) :
  get "Capital Input" (clean_row r) = to_numeric (strip_cell (get "Capital Input" r)).
Proof. rewrite get_clean_row. unfold cleaned_cell, coerced. by decide_closed. Qed.

Lemma retained_clean_row (r : Row) :
  retained (clean_row r) = true
  ↔ isna (to_numeric (strip_cell (get "Current Value" r))) = false
    ∧ isna (to_numeric (strip_cell (get "Capital Input" r))) = false.
Proof.
  unfold retained, notna.
  rewrite cleaned_Current_Value, cleaned_Capital_Input.
  rewrite andb_true_iff, !negb_true_iff. done.
Qed.

Lemma elem_of_loaded raw out r' :
  loaded (inr raw) out →
  r' ∈ rows out ↔ ∃ r, r ∈ rows raw ∧ r' = clean_row r ∧ retained r' = true.
Proof.
  intros (raw' & [= <-] & _ & _ & _ & ->)%loaded_inv. cbn [rows].
  rewrite list_elem_of_filter, list_elem_of_fmap. split.
  - intros [Hret (r & -> & Hr)]. by exists r.
  - intros (r & Hr & -> & Hret). split; [done|]. by exists r.
Qed.

(** C1: when a load goes through, the cleaned row of a raw row is in
    the returned table if and only if its Current Value and its
    Capital Input, symbols stripped and coerced (the cash fill touches
    neither), are both non-null; every row of the table is the cleaned
    form of a raw row and holds a number under both columns. *)
Theorem load_data_retains_iff raw out :
  loaded (inr raw) out →
  (∀ r, r ∈ rows raw →
     clean_row r ∈ rows out
     ↔ isna (to_numeric (strip_cell (get "Current Value" r))) = false
       ∧ isna (to_numeric (strip_cell (get "Capital Input" r))) = false)
  ∧ (∀ r', r' ∈ rows out →
       (∃ r, r ∈ rows raw ∧ r' = clean_row r)
       ∧ (∃ q, get "Current Value" r' = Num q)
       ∧ (∃ q, get "Capital Input" r' = Num q)).
Proof.
  intros Hl. split.
  - intros r Hr. rewrite (elem_of_loaded raw out) by done.
    rewrite <- retained_clean_row. split.
    + by intros (r0 & _ & _ & Hret).
    + intros Hret. by exists r.
  - intros r' (r & Hr & -> & Hret)%(elem_of_loaded raw out); [|done].
    apply retained_clean_row in Hret as [Hcv Hci].
    split; [by eauto|].
    rewrite cleaned_Current_Value, cleaned_Capital_Input.
    split; by apply to_numeric_num.
Qed.

(** ** Cash rows *)

(** The test of line 65: a string that reads CASH once uppercased; a
    null, or a number, is not cash. *)
Lemma is_cash_spec v : is_cash v = true ↔ ∃ s, v = Str s ∧ upper s = "CASH".
Proof.
  unfold is_cash. rewrite bool_decide_eq_true.
  destruct v as [|s|q]; simpl.
  - split; [done|]. by intros (s' & ? & _).
  - split.
    + intros Hs. exists s. split; [done|]. congruence.
    + intros (s' & Hs & Hu). congruence.
  - split; [done|]. by intros (s' & ? & _).
Qed.

Lemma cleaned_zero_col c (r : Row) :
  c ∈ cols_to_zero_for_cash →
  get c (clean_row r)
  = if is_cash (get "Type" r) then fillna (Num 0) (coerced c (get c r))
    else coerced c (get c r).
Proof.
  intros Hc. rewrite get_clean_row. unfold cleaned_cell. cbv zeta.
  rewrite (decide_True (P := c ∈ cols_to_zero_for_cash)) by done.
  rewrite decide_False; [done|].
  intros [->| ->]; revert Hc; apply (bool_decide_unpack _); by vm_compute.
Qed.


Lemma cleaned_other_col c (r : Row) :
  c ∉ cols_to_zero_for_cash → c ≠ "Account" → c ≠ "Type" →
  get c (clean_row r) = coerced c (get c r).
Proof.
  intros Hc HA HT. rewrite get_clean_row. unfold cleaned_cell. cbv zeta.
  rewrite (decide_False (P := c ∈ cols_to_zero_for_cash)) by done.
  rewrite decide_False; [done|]. by intros [?|?].
Qed.

Lemma coerced_numeric c v :
  c ∈ numeric_cols → coerced c v = NaN ∨ ∃ q, coerced c v = Num q.
Proof.
  intros Hc. unfold coerced. cbv zeta. rewrite (decide_True (P := c ∈ numeric_cols)) by done.
  destruct (to_numeric _) as [|s|q] eqn:E; [by left| |by eauto].
  exfalso. revert E. generalize (if decide (c ∈ cols_to_clean) then strip_cell v else v).
  intros [|s'|q']; simpl; [done| |done]. by destruct (to_number s').
Qed.

(** C2: in a load that goes through, for a raw row whose Type is cash
    (line 65: a string that reads CASH once uppercased, so not a
    null), the cleaned row holds, under each of the five columns
    Shares, Cost of Shares, Current Price of Shares, % change and P/L,
    the coerced value with a null replaced by 0, so never a null; under
    every other column but Account and Type, Capital Input and Current
    Value among them, it holds the coerced value as it is, null
    included; and the row is retained exactly when Current Value and
    Capital Input both coerce to a number.  The row of the scenario
    ("Cash", "$500", "$500", blank Shares and Cost of Shares) is
    retained with 0 under Shares and under Cost of Shares, given that
    "500" reads as 500. *)
Theorem cash_rows_zero_filled raw out :
  loaded (inr raw) out →
  ∀ r, r ∈ rows raw → is_cash (get "Type" r) = true →
    (∃ s, get "Type" r = Str s ∧ upper s = "CASH")
    ∧ (∀ c, c ∈ cols_to_zero_for_cash →
       get c (clean_row r) = fillna (Num 0) (coerced c (get c r))
       ∧ isna (get c (clean_row r)) = false)
    ∧ (∀ c, c ∉ cols_to_zero_for_cash → c ≠ "Account" → c ≠ "Type" →
         get c (clean_row r) = coerced c (get c r))
    ∧ get "Capital Input" (clean_row r) = to_numeric (strip_cell (get "Capital Input" r))
    ∧ get "Current Value" (clean_row r) = to_numeric (strip_cell (get "Current Value" r))
    ∧ (clean_row r ∈ rows out
       ↔ isna (to_numeric (strip_cell (get "Current Value" r))) = false
         ∧ isna (to_numeric (strip_cell (get "Capital Input" r))) = false)
    ∧ (get "Type" r = Str "Cash" →
       get "Current Value" r = Str "$500" → get "Capital Input" r = Str "$500" →
       get "Shares" r = NaN → get "Cost of Shares" r = NaN →
       to_number "500" = Some 500%Q →
       clean_row r ∈ rows out
       ∧ get "Shares" (clean_row r) = Num 0
       ∧ get "Cost of Shares" (clean_row r) = Num 0).
Proof.
  intros Hl r Hr Hcash.
  assert (∀ c, c ∈ cols_to_zero_for_cash →
            get c (clean_row r) = fillna (Num 0) (coerced c (get c r))) as Hfill.
  { intros c Hc. by rewrite cleaned_zero_col, Hcash. }
  assert (clean_row r ∈ rows out
          ↔ isna (to_numeric (strip_cell (get "Current Value" r))) = false
            ∧ isna (to_numeric (strip_cell (get "Capital Input" r))) = false) as Hkeep.
  { rewrite (elem_of_loaded raw out) by done. rewrite <- retained_clean_row.
    split; [by intros (? & _ & -> & ?)|by eauto]. }
  split; [by apply is_cash_spec|].
  split; [|split; [|split; [|split; [|split]]]].
  - intros c Hc. split; [by apply Hfill|]. rewrite Hfill by done.
    destruct (coerced_numeric c (get c r)) as [->|[q ->]]; [|done|done].
    by apply cols_to_zero_numeric.
  - intros. by apply cleaned_other_col.
  - apply cleaned_Capital_Input.
  - apply cleaned_Current_Value.
  - done.
  - intros _ Hcv Hci Hsh Hco H500. split; [|split].
    + apply Hkeep. rewrite Hcv, Hci. simpl. by rewrite H500.
    + rewrite Hfill by (apply (bool_decide_unpack _); by vm_compute).
      rewrite Hsh. unfold coerced. by decide_closed.
    + rewrite Hfill by (apply (bool_decide_unpack _); by vm_compute).
      rewrite Hco. unfold coerced. decide_closed. simpl. by rewrite to_number_nan.
Qed.

(** ** Sums *)

Lemma bind_ret_inv {A B} (m : result A) (k : A → result B) b :
  bind m k = ret b → ∃ a, m = ret a ∧ k a = ret b.
Proof. destruct m as [e|a]; [done|]. by exists a. Qed.

Lemma Qplus_0_r_eq (a : Q) : (a + 0)%Q = a.
Proof.
  destruct a as [n d]. unfold Qplus. simpl.
  by rewrite Z.mul_1_r, Z.add_0_r, Pos.mul_1_r.
Qed.


Lemma foldl_sum_step_raise e s : foldl sum_step (inl e) s = inl e.
Proof. by induction s. Qed.

(** A null adds nothing: the running total is the very same number. *)
Lemma sum_step_NaN acc : sum_step acc NaN = acc.
Proof.
  destruct acc as [e|a]; [done|].
  unfold sum_step, as_number, bind. by rewrite Qplus_0_r_eq.
Qed.

Lemma series_sum_skips_null s1 s2 :
  series_sum (s1 ++ NaN :: s2) = series_sum (s1 ++ s2).
Proof.
  unfold series_sum. rewrite !foldl_app. cbn [foldl]. by rewrite sum_step_NaN.
Qed.

Lemma foldl_sum_step_numeric a s :
  Forall (λ v, is_str v = false) s →
  ∃ q, foldl sum_step (ret a) s = ret q
       ∧ (q == a + foldr (λ v acc, cell_value v + acc) 0 s)%Q.
Proof.
  revert a. induction s as [|v s IH]; intros a Hs; simpl.
  - exists a. split; [done|]. by rewrite Qplus_0_r.
  - inversion_clear Hs as [|?? Hv Hs'].
    destruct v as [|?|x]; [|done|]; simpl.
    + destruct (IH (a + 0)%Q Hs') as (q & -> & Hq). exists q. split; [done|].
      rewrite Hq. ring.
    + destruct (IH (a + x)%Q Hs') as (q & -> & Hq). exists q. split; [done|].
      rewrite Hq. ring.
Qed.

Lemma foldl_sum_step_ret_inv acc s q :
  foldl sum_step acc s = ret q → Forall (λ v, is_str v = false) s.
Proof.
  revert acc. induction s as [|v s IH]; intros acc Hq; [done|]. simpl in Hq.
  constructor; [|by eapply IH].
  destruct v; [done| |done]. exfalso.
  destruct acc; simpl in Hq; by rewrite foldl_sum_step_raise in Hq.
Qed.

Lemma foldl_sum_step_other acc s :
  acc ≠ raise ZeroDivisionError → foldl sum_step acc s ≠ raise ZeroDivisionError.
Proof.
  revert acc. induction s as [|v s IH]; intros acc Hacc; [done|]. cbn [foldl].
  apply IH. destruct acc as [e|a]; [done|]. by destruct v.
Qed.

Lemma foldl_sum_step_no_zero_division s :
  series_sum s = raise ZeroDivisionError → False.
Proof. by apply foldl_sum_step_other. Qed.

Lemma sigma_fmap c rs :
  foldr (λ v acc, cell_value v + acc)%Q 0%Q (get c <$> rs) = sigma c rs.
Proof.
  unfold sigma. induction rs as [|r rs IH]; [done|].
  rewrite fmap_cons. cbn [foldr]. by rewrite IH.
Qed.

(** A sum that returns, returns the sum of the spec. *)
Lemma series_sum_sigma c rs q :
  series_sum (get c <$> rs) = ret q → (q == sigma c rs)%Q.
Proof.
  intros Hq. pose proof (foldl_sum_step_ret_inv _ _ _ Hq) as Hnum.
  destruct (foldl_sum_step_numeric 0 _ Hnum) as (q' & Hq' & Heq).
  unfold series_sum in Hq. rewrite Hq in Hq'. injection Hq' as <-.
  rewrite Heq, sigma_fmap. ring.
Qed.

(** Over cells that are numbers or nulls the sum returns. *)
Lemma series_sum_numeric c rs :
  Forall (λ r, is_str (get c r) = false) rs →
  ∃ q, series_sum (get c <$> rs) = ret q ∧ (q == sigma c rs)%Q.
Proof.
  intros Hnum.
  destruct (foldl_sum_step_numeric 0 (get c <$> rs)) as (q & Hq & Heq).
  { by rewrite Forall_fmap. }
  exists q. split; [done|]. by apply series_sum_sigma.
Qed.

(** ** Views *)

Lemma getitem_ret c df :
  c ∈ columns df → getitem c df = ret (column c df).
Proof. intros. unfold getitem. by rewrite bool_decide_eq_true_2. Qed.

Lemma getitem_ret_inv c df s :
  getitem c df = ret s → c ∈ columns df ∧ s = column c df.
Proof.
  unfold getitem. case_bool_decide; [|done]. intros [= <-]. done.
Qed.

(** A mask computed row by row selects the rows that pass the test. *)
Lemma boolean_index_fmap (p : Row → bool) df :
  boolean_index (p <$> rows df) df
  = mkDF (columns df) (filter (λ r, p r = true) (rows df)).
Proof.
  unfold boolean_index. f_equal.
  induction (rows df) as [|r rs IH]; [done|].
  rewrite fmap_cons. cbn [zip zip_with]. rewrite !filter_cons. cbn [fst].
  destruct (decide (p r = true)); [rewrite fmap_cons|]; by rewrite IH.
Qed.

Lemma without_cash_ret_inv df v :
  without_cash df = ret v →
  v = mkDF (columns df) (filter (λ r, not_cash (get "Type" r) = true) (rows df)).
Proof.
  unfold without_cash.
  intros (ty & [_ ->]%getitem_ret_inv & Hv)%bind_ret_inv.
  apply bind_ret_inv in Hv as (ty' & Hty & Hv).
  unfold str_accessor in Hty. destruct (existsb _ _); [|done].
  injection Hty as <-. injection Hv as <-.
  unfold column. rewrite <- list_fmap_compose. apply boolean_index_fmap.
Qed.

Lemma without_cash_ret df :
  "Type" ∈ columns df → existsb is_str (column "Type" df) = true →
  without_cash df
  = ret (mkDF (columns df) (filter (λ r, not_cash (get "Type" r) = true) (rows df))).
Proof.
  intros HT Hstr. unfold without_cash. rewrite getitem_ret by done.
  cbn [bind]. unfold str_accessor. rewrite Hstr. cbn [bind].
  unfold column. rewrite <- list_fmap_compose. by rewrite boolean_index_fmap.
Qed.

(** Lines 65 and 147 test the same thing. *)
Lemma not_cash_is_cash v : not_cash v = negb (is_cash v).
Proof. by destruct v. Qed.

(** ** KPIs *)

Lemma py_div_pos a b : (0 < b)%Q → py_div a b = ret (a / b)%Q.
Proof.
  intros Hb. unfold py_div. destruct (Qeq_bool b 0) eqn:E; [|done].
  apply Qeq_bool_iff in E. rewrite E in Hb. by apply Qlt_irrefl in Hb.
Qed.

Lemma pct_change_on_pos pl ic :
  (0 < ic)%Q → pct_change_on pl ic = ret (pl / ic * 100)%Q.
Proof.
  intros Hic. unfold pct_change_on.
  destruct (Qlt_le_dec 0 ic) as [_|Hle].
  - by rewrite py_div_pos.
  - by apply Qle_not_lt in Hle.
Qed.

Lemma pct_change_on_nonpos pl ic :
  (ic <= 0)%Q → pct_change_on pl ic = ret 0%Q.
Proof.
  intros Hic. unfold pct_change_on.
  destruct (Qlt_le_dec 0 ic) as [Hlt|_]; [|done].
  by apply Qle_not_lt in Hic.
Qed.

Lemma pct_change_on_total pl ic : ∃ q, pct_change_on pl ic = ret q.
Proof.
  destruct (Qlt_le_dec 0 ic).
  - rewrite pct_change_on_pos by done. eauto.
  - rewrite pct_change_on_nonpos by done. eauto.
Qed.

(** What [compute_kpis] returned, field by field. *)
Lemma compute_kpis_ret_inv fdf k :
  compute_kpis fdf = ret k →
  series_sum (column "Current Value" fdf) = ret (total_value k)
  ∧ series_sum (column "P/L" fdf) = ret (total_pl k)
  ∧ series_sum (column "Capital Input" fdf) = ret (total_capital_input k)
  ∧ series_sum (get "Capital Input" <$>
                  filter (λ r, not_cash (get "Type" r) = true) (rows fdf))
    = ret (invested_capital k)
  ∧ pct_change_on (total_pl k) (invested_capital k) = ret (overall_pct_change k).
Proof.
  unfold compute_kpis. intros Hk.
  apply bind_ret_inv in Hk as (cv & [_ ->]%getitem_ret_inv & Hk).
  apply bind_ret_inv in Hk as (tv & Htv & Hk).
  apply bind_ret_inv in Hk as (pl & [_ ->]%getitem_ret_inv & Hk).
  apply bind_ret_inv in Hk as (tpl & Htpl & Hk).
  apply bind_ret_inv in Hk as (ci & [_ ->]%getitem_ret_inv & Hk).
  apply bind_ret_inv in Hk as (tci & Htci & Hk).
  apply bind_ret_inv in Hk as (inv & ->%without_cash_ret_inv & Hk).
  apply bind_ret_inv in Hk as (ici & [_ ->]%getitem_ret_inv & Hk).
  apply bind_ret_inv in Hk as (ic & Hic & Hk).
  apply bind_ret_inv in Hk as (pct & Hpct & Hk).
  injection Hk as <-. done.
Qed.

Lemma bind_raise_inv {A B} (m : result A) (k : A → result B) e :
  bind m k = raise e → m = raise e ∨ ∃ a, m = ret a ∧ k a = raise e.
Proof.
  destruct m as [e'|a]; simpl; intros Hm.
  - injection Hm as ->. by left.
  - right. by exists a.
Qed.

Lemma getitem_no_zero_division c df : getitem c df = raise ZeroDivisionError → False.
Proof. unfold getitem. by case_bool_decide. Qed.

Lemma without_cash_no_zero_division df :
  without_cash df = raise ZeroDivisionError → False.
Proof.
  unfold without_cash. intros [Hk|(ty & _ & Hk)]%bind_raise_inv.
  { by apply getitem_no_zero_division in Hk. }
  apply bind_raise_inv in Hk as [Hk|(ty' & _ & Hk)]; [|done].
  unfold str_accessor in Hk. by destruct (existsb _ _).
Qed.

Lemma pct_change_on_no_zero_division pl ic :
  pct_change_on pl ic = raise ZeroDivisionError → False.
Proof. destruct (pct_change_on_total pl ic) as [q ->]. done. Qed.

Lemma compute_kpis_no_zero_division fdf :
  compute_kpis fdf = raise ZeroDivisionError → False.
Proof.
  unfold compute_kpis. intros Hk.
  repeat (apply bind_raise_inv in Hk as [Hk|(? & _ & Hk)];
          [ by first [ apply getitem_no_zero_division in Hk
                     | apply foldl_sum_step_no_zero_division in Hk
                     | apply without_cash_no_zero_division in Hk
                     | apply pct_change_on_no_zero_division in Hk ] | ]).
  done.
Qed.

(** C3: whenever the KPIs of a view are computed, the invested
    capital is the sum of Capital Input over its rows whose Type does
    not read CASH once uppercased; the overall percentage change is
    total_pl / invested_capital * 100 when the invested capital is
    strictly positive and exactly 0 when it is zero or negative; and
    neither [pct_change_on] nor the whole computation ever raises
    a division by zero. *)
Theorem overall_pct_change_spec fdf k :
  compute_kpis fdf = ret k →
  (invested_capital k
   == sigma "Capital Input" (filter (λ r, not_cash (get "Type" r) = true) (rows fdf)))%Q
  ∧ ((0 < invested_capital k)%Q →
     overall_pct_change k = (total_pl k / invested_capital k * 100)%Q)
  ∧ ((invested_capital k <= 0)%Q → overall_pct_change k = 0%Q)
  ∧ (∀ pl ic, ∃ q, pct_change_on pl ic = ret q)
  ∧ (∀ view, compute_kpis view ≠ raise ZeroDivisionError).
Proof.
  intros (_ & _ & _ & Hic & Hpct)%compute_kpis_ret_inv.
  split; [by apply series_sum_sigma|].
  split; [|split; [|split]].
  - intros Hpos. rewrite pct_change_on_pos in Hpct by done. congruence.
  - intros Hle. rewrite pct_change_on_nonpos in Hpct by done. congruence.
  - apply pct_change_on_total.
  - intros view Hv. by apply compute_kpis_no_zero_division in Hv.
Qed.

(** ** The default selection shows every row *)

Lemma cell_eqb_refl v : cell_eqb v v = true.
Proof.
  destruct v as [|s|q]; simpl; [done|by apply bool_decide_eq_true_2|].
  by apply Qeq_bool_iff.
Qed.

Lemma cell_eqb_trans a b c :
  cell_eqb a b = true → cell_eqb b c = true → cell_eqb a c = true.
Proof.
  destruct a as [|s|p], b as [|t|q], c as [|u|r]; simpl; try done.
  - rewrite !bool_decide_eq_true. congruence.
  - apply Qeq_bool_trans.
Qed.

Lemma isin_true values v :
  isin values v = true ↔ ∃ x, x ∈ values ∧ cell_eqb v x = true.
Proof.
  unfold isin. rewrite existsb_exists. by setoid_rewrite list_elem_of_In.
Qed.

Lemma isin_elem_of values v : v ∈ values → isin values v = true.
Proof. intros Hv. apply isin_true. exists v. by rewrite cell_eqb_refl. Qed.

Lemma unique_acc seen s v :
  isin (foldl (λ seen v, if isin seen v then seen else seen ++ [v]) seen s) v = true
  ↔ isin seen v = true ∨ isin s v = true.
Proof.
  revert seen. induction s as [|x s IH]; intros seen; cbn [foldl].
  - split; [by left|]. by intros [?|?].
  - rewrite IH. destruct (isin seen x) eqn:Ex.
    + split.
      * intros [?|Hs]; [by left|]. right. apply isin_true.
        apply isin_true in Hs as (y & Hy & Hvy). exists y. split; [|done].
        by apply list_elem_of_further.
      * intros [?|(y & [->|Hy]%elem_of_cons & Hvy)%isin_true]; [by left| |].
        -- left. apply isin_true in Ex as (z & Hz & Hxz). apply isin_true.
           exists z. split; [done|]. by eapply cell_eqb_trans.
        -- right. apply isin_true. by exists y.
    + split.
      * intros [(y & [Hy|Hy%list_elem_of_singleton]%elem_of_app & Hvy)%isin_true|Hs].
        -- left. apply isin_true. by exists y.
        -- subst y. right. apply isin_true. exists x. split; [|done].
           apply list_elem_of_here.
        -- right. apply isin_true in Hs as (y & Hy & Hvy). apply isin_true.
           exists y. split; [|done]. by apply list_elem_of_further.
      * intros [(y & Hy & Hvy)%isin_true|(y & [->|Hy]%elem_of_cons & Hvy)%isin_true].
        -- left. apply isin_true. exists y. split; [|done]. apply elem_of_app. by left.
        -- left. apply isin_true. exists x. split; [|done].
           apply elem_of_app. right. by apply list_elem_of_singleton.
        -- right. apply isin_true. by exists y.
Qed.

(** [unique] keeps every value, up to the equality [isin] uses. *)
Lemma isin_unique s v : isin (unique s) v = true ↔ isin s v = true.
Proof.
  unfold unique. rewrite unique_acc. split; [|by right]. by intros [?|?].
Qed.

Lemma filter_none {A} (P : A → Prop) `{∀ x, Decision (P x)} (l : list A) :
  Forall (λ x, ¬ P x) l → filter P l = [].
Proof.
  induction 1 as [|x l Hx Hl IH]; [done|].
  by rewrite filter_cons_False, IH.
Qed.

Lemma filter_all {A} (P : A → Prop) `{∀ x, Decision (P x)} (l : list A) :
  Forall P l → filter P l = l.
Proof.
  induction 1 as [|x l Hx Hl IH]; [done|].
  by rewrite filter_cons_True, IH.
Qed.

Lemma filter_view_fmap sa st df :
  "Account" ∈ columns df → "Type" ∈ columns df →
  filter_view sa st df
  = ret (mkDF (columns df)
           (filter (λ r, isin sa (get "Account" r) && isin st (get "Type" r) = true)
                   (rows df))).
Proof.
  intros HA HT. unfold filter_view. rewrite !getitem_ret by done. cbn [bind].
  unfold column. rewrite <- !list_fmap_compose.
  rewrite zip_with_fmap_l, zip_with_fmap_r, zip_with_diag.
  by rewrite boolean_index_fmap.
Qed.

Lemma filter_view_default df :
  "Account" ∈ columns df → "Type" ∈ columns df →
  filter_view (default_selection "Account" df) (default_selection "Type" df) df
  = ret df.
Proof.
  intros HA HT. rewrite filter_view_fmap by done.
  rewrite filter_all; [by rewrite df_eta|].
  apply Forall_forall. intros r Hr. apply andb_true_iff.
  unfold default_selection, column.
  split; apply isin_unique, isin_elem_of, list_elem_of_fmap; by exists r.
Qed.

(** C7: whenever the KPIs of a view are computed, total_value is the
    sum of Current Value over all of its rows, whatever their Type
    and sign; and with every account and every type selected (the
    selection the filters start with) the view of a table is the
    table itself, so that the sum runs over every row of the base
    table. *)
Theorem total_value_is_sum fdf k :
  compute_kpis fdf = ret k →
  series_sum (column "Current Value" fdf) = ret (total_value k)
  ∧ (total_value k == sigma "Current Value" (rows fdf))%Q
  ∧ (∀ base,
       "Account" ∈ columns base → "Type" ∈ columns base →
       filter_view (default_selection "Account" base)
                   (default_selection "Type" base) base = ret base)
  ∧ (∀ base,
       filter_view (default_selection "Account" base)
                   (default_selection "Type" base) base = ret fdf →
       rows fdf = rows base
       ∧ (total_value k == sigma "Current Value" (rows base))%Q).
Proof.
  intros (Htv & _)%compute_kpis_ret_inv.
  assert (total_value k == sigma "Current Value" (rows fdf))%Q as Hsum
    by (by apply series_sum_sigma).
  split; [done|]. split; [done|]. split.
  - intros base. apply filter_view_default.
  - intros base Hview.
    assert ("Account" ∈ columns base ∧ "Type" ∈ columns base) as [HA HT].
    { unfold filter_view in Hview.
      apply bind_ret_inv in Hview as (acc & [HA _]%getitem_ret_inv & Hview).
      apply bind_ret_inv in Hview as (ty & [HT _]%getitem_ret_inv & _). done. }
    rewrite filter_view_default in Hview by done. injection Hview as <-. done.
Qed.

(** ** What a loaded table holds, and why its KPIs compute *)

Lemma loaded_columns raw out :
  loaded (inr raw) out →
  columns out = columns raw ∧ Forall (λ c, c ∈ columns out) all_expected_cols.
Proof.
  intros (raw' & [= <-] & _ & Hmiss & _ & ->)%loaded_inv. cbn [columns].
  split; [done|]. by apply missing_cols_nil.
Qed.

Lemma clean_row_numeric c (r : Row) :
  c ∈ numeric_cols → is_str (get c (clean_row r)) = false.
Proof.
  intros Hc. rewrite get_clean_row. unfold cleaned_cell. cbv zeta.
  rewrite (decide_False (P := c = "Account" ∨ c = "Type"))
    by (intros [->| ->]; revert Hc; apply (bool_decide_unpack _); by vm_compute).
  destruct (coerced_numeric c (get c r) Hc) as [->|[q ->]];
    destruct (decide _); by try destruct (is_cash _).
Qed.

Lemma loaded_numeric raw out r' c :
  loaded (inr raw) out → r' ∈ rows out → c ∈ numeric_cols →
  is_str (get c r') = false.
Proof.
  intros Hl (r & _ & -> & _)%(elem_of_loaded raw out) Hc; [|done].
  by apply clean_row_numeric.
Qed.

(** [read_csv] types a column as a whole: where one cell of the Type
    column is a string, none is a number.  Then every Type of the
    cleaned table is a string. *)
Lemma loaded_Type_str raw out r' :
  loaded (inr raw) out →
  Forall (λ v, is_num v = false) (column "Type" raw) →
  r' ∈ rows out → is_str (get "Type" r') = true.
Proof.
  intros Hl Hobj (r & Hr & -> & _)%(elem_of_loaded raw out); [|done].
  rewrite get_clean_row. unfold cleaned_cell, coerced. cbv zeta. decide_closed.
  unfold column in Hobj. rewrite Forall_fmap, Forall_forall in Hobj.
  specialize (Hobj r Hr). simpl in Hobj. by destruct (get "Type" r).
Qed.

Lemma existsb_is_str_nonempty (s : list cell) :
  s ≠ [] → Forall (λ v, is_str v = true) s → existsb is_str s = true.
Proof.
  destruct s as [|v s]; [done|]. intros _ Hs.
  inversion_clear Hs as [|?? Hv _]. simpl. by rewrite Hv.
Qed.

(** The KPIs of a non-empty view of a loaded table are computed: no
    exception of any kind. *)
Lemma compute_kpis_total raw out view :
  loaded (inr raw) out →
  Forall (λ v, is_num v = false) (column "Type" raw) →
  columns view = columns out → rows view ⊆ rows out → rows view ≠ [] →
  ∃ k, compute_kpis view = ret k.
Proof.
  intros Hl Hobj Hcols Hsub Hne.
  destruct (loaded_columns raw out Hl) as [_ Hexp].
  rewrite <- Hcols, Forall_forall in Hexp.
  assert (∀ c rs, c ∈ numeric_cols → rs ⊆ rows out →
            ∃ q, series_sum (get c <$> rs) = ret q) as Hsum.
  { intros c rs Hc Hrs. destruct (series_sum_numeric c rs) as (q & Hq & _); [|by eauto].
    apply Forall_forall. intros r Hr. eapply loaded_numeric; eauto. }
  unfold compute_kpis.
  rewrite !getitem_ret
    by (apply Hexp; apply (bool_decide_unpack _); by vm_compute).
  cbn [bind]. unfold column.
  destruct (Hsum "Current Value" (rows view)) as [tv ->];
    [apply (bool_decide_unpack _); by vm_compute|done|].
  destruct (Hsum "P/L" (rows view)) as [tpl ->];
    [apply (bool_decide_unpack _); by vm_compute|done|].
  destruct (Hsum "Capital Input" (rows view)) as [tci ->];
    [apply (bool_decide_unpack _); by vm_compute|done|].
  cbn [bind].
  rewrite without_cash_ret.
  2: { apply Hexp, Type_expected. }
  2: { apply existsb_is_str_nonempty.
       - unfold column. by destruct (rows view).
       - unfold column. apply Forall_fmap, Forall_forall. intros r Hr.
         eapply loaded_Type_str; eauto. }
  cbn [bind]. rewrite getitem_ret by (apply Hexp; apply (bool_decide_unpack _); by vm_compute).
  cbn [bind]. unfold column. cbn [rows].
  destruct (Hsum "Capital Input"
              (filter (λ r, not_cash (get "Type" r) = true) (rows view))) as [ic ->].
  { apply (bool_decide_unpack _); by vm_compute. }
  { etrans; [apply list_subseteq_filter|done]. }
  cbn [bind]. destruct (pct_change_on_total tpl ic) as [pct ->]. cbn [bind].
  by eauto.
Qed.

(** C10: in a load that goes through, a raw row whose Type is not
    cash keeps, under Shares, Cost of Shares, Current Price of Shares,
    % change and P/L, the coerced value as it is, a null where the
    coercion gave a null; over any selection of rows of the cleaned
    table the sum of a numeric column returns a number, the sum of the
    spec in which a null counts for nothing; and a row that holds a
    null under a column adds nothing to the sum of that column: the
    sum with the row is the sum without it.  The KPIs are these sums:
    whenever [compute_kpis] returns, its total_pl, total_value and
    total_capital_input are the sums of P/L, Current Value and Capital
    Input over the rows of the view with a null counted as nothing; a
    row with a null P/L leaves total_pl as it is without the row; and
    for a selection of rows of the cleaned table that is not empty,
    the Type column of the sheet holding no number, [compute_kpis]
    does return: no null, no exception. *)
Theorem null_fields_are_skipped raw out :
  loaded (inr raw) out →
  (∀ r c, r ∈ rows raw → is_cash (get "Type" r) = false →
          c ∈ cols_to_zero_for_cash →
          get c (clean_row r) = coerced c (get c r))
  ∧ (∀ view c, rows view ⊆ rows out → c ∈ numeric_cols →
       ∃ q, series_sum (column c view) = ret q ∧ (q == sigma c (rows view))%Q)
  ∧ (∀ c rs1 (r : Row) rs2, get c r = NaN →
       series_sum (get c <$> rs1 ++ r :: rs2) = series_sum (get c <$> rs1 ++ rs2))
  ∧ (∀ view k, compute_kpis view = ret k →
       (total_pl k == sigma "P/L" (rows view))%Q
       ∧ (total_value k == sigma "Current Value" (rows view))%Q
       ∧ (total_capital_input k == sigma "Capital Input" (rows view))%Q)
  ∧ (∀ cols rs1 (r : Row) rs2 k k', get "P/L" r = NaN →
       compute_kpis (mkDF cols (rs1 ++ r :: rs2)) = ret k →
       compute_kpis (mkDF cols (rs1 ++ rs2)) = ret k' →
       total_pl k = total_pl k')
  ∧ (Forall (λ v, is_num v = false) (column "Type" raw) →
     ∀ view, columns view = columns out → rows view ⊆ rows out → rows view ≠ [] →
       ∃ k, compute_kpis view = ret k).
Proof.
  intros Hl. split; [|split; [|split; [|split; [|split]]]].
  - intros r c _ Hcash Hc. by rewrite cleaned_zero_col, Hcash.
  - intros view c Hsub Hc. apply series_sum_numeric, Forall_forall.
    intros r Hr. eapply loaded_numeric; eauto.
  - intros c rs1 r rs2 Hnull. rewrite !fmap_app, fmap_cons, Hnull.
    apply series_sum_skips_null.
  - intros view k (Htv & Hpl & Hci & _)%compute_kpis_ret_inv.
    unfold column in *. split; [|split]; by apply series_sum_sigma.
  - intros cols rs1 r rs2 k k' Hnull
      (_ & Hpl & _)%compute_kpis_ret_inv (_ & Hpl' & _)%compute_kpis_ret_inv.
    unfold column in Hpl, Hpl'. cbn [rows] in Hpl, Hpl'.
    rewrite fmap_app, fmap_cons, Hnull, series_sum_skips_null in Hpl.
    rewrite fmap_app in Hpl'. congruence.
  - intros Hobj view Hcols Hsub Hne. by eapply compute_kpis_total.
Qed.

(** ** The schema check and the ways a load fails *)

Lemma load_data_raised e :
  load_data (inl e) = (pd_DataFrame, [st_error msg_exception; st_exception e]).
Proof. done. Qed.

Lemma load_data_empty raw :
  df_empty raw = true → load_data (inr raw) = (pd_DataFrame, [st_error msg_empty]).
Proof. intros He. unfold load_data, load_body. cbn [bind]. by rewrite He. Qed.

Lemma load_data_missing raw :
  df_empty raw = false → missing_cols raw ≠ [] →
  load_data (inr raw) = (pd_DataFrame, [st_error (msg_missing (missing_cols raw))]).
Proof.
  intros He Hm. unfold load_data, load_body. cbn [bind]. rewrite He.
  destruct (missing_cols raw); [by destruct Hm|done].
Qed.

Lemma load_data_no_str raw :
  df_empty raw = false → missing_cols raw = [] →
  existsb is_str (column "Type" raw) = false →
  load_data (inr raw)
  = (pd_DataFrame, [st_error msg_exception; st_exception AttributeError]).
Proof.
  intros He Hm Hs. unfold load_data. cbn [bind].
  rewrite load_body_eq by done. by rewrite Hs.
Qed.

Lemma load_body_fails_or_loads raw :
  df_empty raw = false → missing_cols raw = [] →
  load_data (inr raw)
  = if existsb is_str (column "Type" raw)
    then (mkDF (columns raw)
            (filter (λ r, retained r = true) (clean_row <$> rows raw)), [])
    else (pd_DataFrame, [st_error msg_exception; st_exception AttributeError]).
Proof.
  intros He Hm. unfold load_data. cbn [bind].
  rewrite load_body_eq by done. by destruct (existsb _ _).
Qed.

Lemma missing_cols_ext raw raw' :
  (∀ c, c ∈ columns raw' ↔ c ∈ columns raw) → missing_cols raw' = missing_cols raw.
Proof.
  intros Hc. unfold missing_cols, has_col. apply list_filter_iff. intros c.
  rewrite !bool_decide_eq_false. by rewrite Hc.
Qed.

(** C5, as amended: for a parsed sheet with at least one data row that
    lacks one or more of the thirteen required columns, the load
    returns the empty table and draws one error, which names the
    absent required columns and only those, in the order of the
    required list; a sheet that lacks P/L alone is told
    "... missing from your sheet: P/L". *)
Theorem missing_columns_reported raw :
  df_empty raw = false →
  (∃ c, c ∈ all_expected_cols ∧ c ∉ columns raw) →
  load_data (inr raw) = (pd_DataFrame, [st_error (msg_missing (missing_cols raw))])
  ∧ (∀ c, c ∈ missing_cols raw ↔ c ∈ all_expected_cols ∧ c ∉ columns raw)
  ∧ all_expected_cols
    = ["Account"; "Ticker"; "Tag"; "Name"; "Type"; "Action"; "Shares";
       "Cost of Shares"; "Current Price of Shares"; "Capital Input";
       "Current Value"; "% change"; "P/L"]
  ∧ (missing_cols raw = ["P/L"] →
     load_data (inr raw)
     = (pd_DataFrame,
        [st_error "The following required columns are missing from your sheet: P/L"])).
Proof.
  intros He (c & Hc & Hn).
  assert (missing_cols raw ≠ []) as Hm.
  { intros Hnil. assert (c ∈ missing_cols raw) as Hin by (by apply elem_of_missing_cols).
    rewrite Hnil in Hin. by apply elem_of_nil in Hin. }
  split; [by apply load_data_missing|]. split; [apply elem_of_missing_cols|].
  split; [done|]. intros HPL. rewrite load_data_missing by done. by rewrite HPL.
Qed.

(** C9, as amended: the schema check is sensitive to case and to
    nothing else.  A sheet with at least one data row is refused for
    its columns exactly when some required name, spelled as listed, is
    not among its column labels; a header that is a permutation of
    another names the same missing columns, and where a load goes
    through it goes through for every reordering of the header, with
    the same rows.  A label that differs from a required name in case
    only does not stand for it: with "account" for "Account" the
    Account column is reported missing. *)
Theorem schema_check_ignores_order raw :
  (df_empty raw = false →
     (∃ c, c ∈ all_expected_cols ∧ c ∉ columns raw)
     ↔ load_data (inr raw)
       = (pd_DataFrame, [st_error (msg_missing (missing_cols raw))]))
  ∧ ("account" ∈ columns raw → "Account" ∉ columns raw →
     "Account" ∈ missing_cols raw)
  ∧ (∀ raw', columns raw' ≡ₚ columns raw → missing_cols raw' = missing_cols raw)
  ∧ (∀ raw' out, columns raw' ≡ₚ columns raw → rows raw' = rows raw →
       loaded (inr raw) out → loaded (inr raw') (mkDF (columns raw') (rows out))).
Proof.
  split; [|split; [|split]].
  2: { intros _ Hn. apply elem_of_missing_cols. split; [apply Account_expected|done]. }
  - intros He. split.
    + intros (c & Hc & Hn). apply load_data_missing; [done|].
      intros Hnil. assert (c ∈ missing_cols raw) as Hin by (by apply elem_of_missing_cols).
      rewrite Hnil in Hin. by apply elem_of_nil in Hin.
    + intros Hl. destruct (missing_cols raw) as [|c l] eqn:Hm.
      * exfalso. rewrite load_body_fails_or_loads in Hl by done.
        by destruct (existsb _ _).
      * exists c. apply elem_of_missing_cols. rewrite Hm. apply list_elem_of_here.
  - intros raw' Hp. apply missing_cols_ext. intros c. by rewrite Hp.
  - intros raw' out Hp Hr (raw0 & [= <-] & He & Hm & Hs & ->)%loaded_inv.
    cbn [rows]. rewrite <- Hr.
    assert (columns raw' ≠ []) as Hne.
    { intros Hnil. rewrite Hnil in Hp. apply Permutation_nil_l in Hp.
      unfold df_empty in He. by rewrite <- Hp in He. }
    apply loaded_intro.
    + unfold df_empty in *. rewrite Hr.
      destruct (columns raw'); [done|]. by destruct (columns raw), (rows raw).
    + rewrite <- Hm. apply missing_cols_ext. intros c. by rewrite Hp.
    + unfold column in *. by rewrite Hr.
Qed.

(** ** The session *)

Lemma load_button_clicked w fetched s :
  load_clicked w = true → sheet_url w ≠ "" →
  (load_button w fetched s).1 = session_after_load fetched.
Proof.
  intros Hc Hu. unfold load_button, session_after_load. rewrite Hc.
  rewrite bool_decide_eq_false_2 by done.
  destruct (load_data fetched) as [df out]. cbn [fst].
  by destruct (df_empty df).
Qed.

Lemma script_state w fetched s :
  (script w fetched s).1 = (load_button w fetched s).1.
Proof. unfold script. by destruct (load_button w fetched s). Qed.

Lemma load_button_idle w fetched s :
  load_clicked w = false → load_button w fetched s = (s, []).
Proof. intros Hc. unfold load_button. by rewrite Hc. Qed.

Lemma load_data_cases fetched :
  (∃ out, loaded fetched out) ∨ (load_data fetched).1 = pd_DataFrame.
Proof.
  destruct fetched as [e|raw]; [by right|].
  destruct (df_empty raw) eqn:He; [rewrite load_data_empty by done; by right|].
  destruct (missing_cols raw) eqn:Hm.
  - rewrite load_body_fails_or_loads by done.
    destruct (existsb is_str (column "Type" raw)) eqn:Hs; [left|by right].
    eexists. by apply loaded_intro.
  - rewrite load_data_missing by (done || by rewrite Hm). by right.
Qed.

Lemma initial_session_ok : session_ok initial_session.
Proof. by intros ?. Qed.

(** A run of the script keeps the session well formed. *)
Lemma script_session_ok w fetched s :
  session_ok s → session_ok (script w fetched s).1.
Proof.
  intros Hs. rewrite script_state. unfold load_button.
  destruct (load_clicked w); [|done].
  case_bool_decide; [by intros ?|].
  destruct (load_data fetched) as [df out] eqn:Hl.
  destruct (df_empty df) eqn:He; cbn [negb fst]; [by intros ?|].
  intros _. cbn [ss_df]. split; [done|].
  destruct (load_data_cases fetched) as [[out' Hl']|Hp].
  - unfold loaded in Hl'. rewrite Hl in Hl'. injection Hl' as -> ->.
    destruct fetched as [e|raw]; [done|].
    by eapply loaded_columns.
  - rewrite Hl in Hp. cbn [fst] in Hp. by subst df.
Qed.

(** C4, as amended: when the button is pressed with a URL and the load
    fails, by a fetch that raised, an empty source, missing columns or
    an exception while cleaning, the session table is replaced by the
    empty table, whatever was loaded before, the data-loaded flag is
    set to false, and the page shows the error followed by the welcome
    note. *)
Theorem failed_load_clears_session w fetched s :
  load_clicked w = true → sheet_url w ≠ "" →
  ((∃ e, fetched = inl e)
   ∨ (∃ raw, fetched = inr raw
             ∧ (df_empty raw = true ∨ missing_cols raw ≠ []
                ∨ existsb is_str (column "Type" raw) = false))) →
  (script w fetched s).1 = mkSession pd_DataFrame false
  ∧ (script w fetched s).2 = (load_data fetched).2 ++ [st_info msg_welcome]
  ∧ (load_data fetched).2 ≠ [].
Proof.
  intros Hc Hu Hfail.
  assert (∃ out, load_data fetched = (pd_DataFrame, out) ∧ out ≠ []) as (out & Hl & Hout).
  { destruct Hfail as [[e ->]|(raw & -> & Hraw)].
    { rewrite load_data_raised. by eauto. }
    destruct (df_empty raw) eqn:He.
    { rewrite load_data_empty by done. by eauto. }
    destruct (missing_cols raw) eqn:Hm.
    - destruct Hraw as [?|[?|Hs]]; [done|done|].
      rewrite load_data_no_str by done. by eauto.
    - rewrite load_data_missing by (done || by rewrite Hm). by eauto. }
  unfold script, load_button. rewrite Hc, bool_decide_eq_false_2 by done.
  rewrite Hl. cbn. done.
Qed.

(** C6: with data loaded and no load requested, when the rows whose
    Account is among the selected accounts and whose Type is among
    the selected types are none, the run draws the two filters and
    the warning and nothing else (no metric, no chart, no table), and
    leaves the session, base table included, as it was; selecting no
    account at all is such a case. *)
Theorem empty_view_warns w fetched s :
  load_clicked w = false → data_loaded s = true →
  "Account" ∈ columns (ss_df s) → "Type" ∈ columns (ss_df s) →
  let warned :=
    (s, [st_sidebar_header "Display Filters";
         st_sidebar_multiselect "Filter by Account" (unique (column "Account" (ss_df s)));
         st_sidebar_multiselect "Filter by Type" (unique (column "Type" (ss_df s)));
         st_warning msg_no_match]) in
  (∀ view, filter_view (selected_account w) (selected_type w) (ss_df s) = ret view →
           df_empty view = true → script w fetched s = warned)
  ∧ (selected_account w = [] → script w fetched s = warned).
Proof.
  intros Hc Hl HA HT warned.
  assert (∀ view, filter_view (selected_account w) (selected_type w) (ss_df s) = ret view →
                  df_empty view = true → script w fetched s = warned) as Hwarn.
  { intros view Hview He. unfold script. rewrite load_button_idle by done.
    unfold main_display. rewrite Hl. rewrite !getitem_ret by done.
    rewrite Hview. unfold lift, draw, ui_bind, page. cbn [app]. by rewrite He. }
  split; [done|]. intros Hnone.
  eapply Hwarn; [by apply filter_view_fmap|].
  rewrite Hnone. unfold df_empty. cbn [rows columns isin existsb andb].
  destruct (columns (ss_df s)); [done|].
  rewrite filter_none; [by destruct (rows (ss_df s))|].
  apply Forall_forall. by intros r _.
Qed.

(** C8, as amended: [load_data] is a function of what was fetched: the
    same input gives the same table and the same drawing.  It draws
    nothing exactly when the load goes through, that is, for a sheet
    with a column and a row, with the thirteen required columns and a
    string in its Type column; the table returned is then the cleaned
    rows that are retained, under the header as read.  In every other
    case it returns the empty table [pd.DataFrame()] and draws on the
    page: an [st.error] first, followed by an [st.exception] when an
    exception was caught, and by nothing else. *)
Theorem load_draws_exactly_on_failure fetched :
  (∀ res res', load_data fetched = res → load_data fetched = res' → res = res')
  ∧ ((load_data fetched).2 = []
     ↔ ∃ raw, fetched = inr raw ∧ df_empty raw = false ∧ missing_cols raw = []
              ∧ existsb is_str (column "Type" raw) = true)
  ∧ (∀ raw, fetched = inr raw → (load_data fetched).2 = [] →
       (load_data fetched).1
       = mkDF (columns raw) (filter (λ r, retained r = true) (clean_row <$> rows raw)))
  ∧ ((load_data fetched).2 ≠ [] →
       (load_data fetched).1 = pd_DataFrame
       ∧ ∃ msg rest, (load_data fetched).2 = st_error msg :: rest
                     ∧ (rest = [] ∨ ∃ e, rest = [st_exception e])).
Proof.
  split; [by intros ?? <- <-|].
  destruct fetched as [e|raw].
  { rewrite load_data_raised. cbn [fst snd].
    split; [split; [done|by intros (? & ? & _)]|].
    split; [done|]. intros _. split; [done|]. by eauto 6. }
  destruct (df_empty raw) eqn:He.
  { rewrite load_data_empty by done. cbn [fst snd].
    split; [split; [done|intros (? & [= <-] & ? & _); congruence]|].
    split; [done|]. intros _. split; [done|]. by eauto 6. }
  destruct (missing_cols raw) as [|c l] eqn:Hm.
  - rewrite load_body_fails_or_loads by done.
    destruct (existsb is_str (column "Type" raw)) eqn:Hs; cbn [fst snd].
    + split; [split; [by eauto 6|done]|].
      split; [by intros ? [= <-] _|done].
    + split; [split; [done|intros (? & [= <-] & _ & _ & ?); congruence]|].
      split; [done|]. intros _. split; [done|]. by eauto 6.
  - rewrite load_data_missing by (done || by rewrite Hm). cbn [fst snd].
    split; [split; [done|intros (? & [= <-] & _ & ? & _); congruence]|].
    split; [done|]. intros _. split; [done|]. by eauto 6.
Qed.

End Properties.

(** * The properties on the sample sheet *)

Lemma sample_loaded : loaded (inr sample) sample_clean.
Proof. vm_compute. reflexivity. Qed.

Lemma sample_kpis_computed : compute_kpis sample_clean = ret sample_kpis.
Proof. vm_compute. reflexivity. Qed.

Lemma sample_Type_is_text : Forall (λ v, is_num v = false) (column "Type" sample).
Proof. apply (bool_decide_unpack _). by vm_compute. Qed.

Lemma sample_clean_has_rows : rows sample_clean ≠ [].
Proof. done. Qed.

(** The cleaned sample: four rows, the cash fields filled. *)
Example sample_clean_rows :
  sample_clean
  = mkDF all_expected_cols (clean_row <$> [cash_row; stock_row; fund_row; overdrawn_row]).
Proof. vm_compute. reflexivity. Qed.

Example sample_clean_cash_row :
  map_to_list (clean_row cash_row)
  ≡ₚ [("Account", Str "Broker"); ("Ticker", Str "USD"); ("Name", Str "Dollars");
      ("Type", Str "Cash"); ("Shares", Num 0); ("Cost of Shares", Num 0);
      ("Current Price of Shares", Num 0); ("Capital Input", Num 500);
      ("Current Value", Num 500); ("% change", Num 0); ("P/L", Num 0)].
Proof. apply (bool_decide_unpack _). by vm_compute. Qed.

(** With the cash rows alone in view nothing is invested, and the
    percentage is 0. *)
Example cash_only_view :
  compute_kpis (mkDF all_expected_cols (clean_row <$> [cash_row; overdrawn_row]))
  = ret (mkKPI 300 0 500 0 0).
Proof. by vm_compute. Qed.

(** A sheet whose Type column is blank throughout has no string in it:
    [.str] raises and the load reports an exception. *)
Example blank_Type_column :
  load_data (inr (mkDF all_expected_cols [delete "Type" stock_row]))
  = (pd_DataFrame, [st_error msg_exception; st_exception AttributeError]).
Proof. by vm_compute. Qed.

(** C1 on the sample sheet: the cash row is kept, the row with a blank
    Current Value is not. *)
Lemma load_data_retains_iff_sample :
  loaded (inr sample) sample_clean
  ∧ clean_row cash_row ∈ rows sample_clean
  ∧ clean_row no_value_row ∉ rows sample_clean.
Proof.
  pose proof (load_data_retains_iff sample sample_clean sample_loaded) as [Hiff _].
  split; [exact sample_loaded|]. split.
  - apply (Hiff cash_row); [apply (bool_decide_unpack _); by vm_compute|].
    split; by vm_compute.
  - intros Hin. apply (Hiff no_value_row) in Hin as [Hcv _];
      [|apply (bool_decide_unpack _); by vm_compute].
    vm_compute in Hcv. discriminate.
Defined.

(** C2 on the sample sheet: the scenario row. *)
Lemma cash_rows_zero_filled_sample :
  loaded (inr sample) sample_clean
  ∧ cash_row ∈ rows sample
  ∧ is_cash (get "Type" cash_row) = true
  ∧ clean_row cash_row ∈ rows sample_clean
  ∧ get "Shares" (clean_row cash_row) = Num 0
  ∧ get "Cost of Shares" (clean_row cash_row) = Num 0.
Proof.
  assert (cash_row ∈ rows sample) as Hin by (apply (bool_decide_unpack _); by vm_compute).
  assert (is_cash (get "Type" cash_row) = true) as Hcash by (by vm_compute).
  pose proof (cash_rows_zero_filled sample sample_clean sample_loaded cash_row Hin Hcash)
    as (_ & _ & _ & _ & _ & _ & Hscenario).
  split; [exact sample_loaded|]. split; [exact Hin|]. split; [exact Hcash|].
  apply Hscenario; by vm_compute.
Defined.

(** C3 on the sample sheet: 1405 invested, 195 gained. *)
Lemma overall_pct_change_spec_sample :
  compute_kpis sample_clean = ret sample_kpis
  ∧ (0 < invested_capital sample_kpis)%Q
  ∧ overall_pct_change sample_kpis
    = (total_pl sample_kpis / invested_capital sample_kpis * 100)%Q
  ∧ (invested_capital sample_kpis == 1405)%Q
  ∧ (total_pl sample_kpis == 195)%Q.
Proof.
  pose proof (overall_pct_change_spec sample_clean sample_kpis sample_kpis_computed)
    as (_ & Hpos & _).
  split; [exact sample_kpis_computed|].
  assert (0 < invested_capital sample_kpis)%Q as Hic by (by vm_compute).
  split; [exact Hic|]. split; [exact (Hpos Hic)|]. split; by vm_compute.
Defined.

(** C7 on the sample sheet: 500 + 1200 + 380 - 200. *)
Lemma total_value_is_sum_sample :
  compute_kpis sample_clean = ret sample_kpis
  ∧ (total_value sample_kpis == sigma "Current Value" (rows sample_clean))%Q
  ∧ (sigma "Current Value" (rows sample_clean) == 1880)%Q
  ∧ filter_view (default_selection "Account" sample_clean)
                (default_selection "Type" sample_clean) sample_clean
    = ret sample_clean.
Proof.
  pose proof (total_value_is_sum sample_clean sample_kpis sample_kpis_computed)
    as (_ & Hsum & Hdefault & _).
  split; [exact sample_kpis_computed|]. split; [exact Hsum|]. split; [by vm_compute|].
  apply Hdefault; apply (bool_decide_unpack _); by vm_compute.
Defined.

(** C10 on the sample sheet: the fund is kept with a null P/L, the
    P/L column still sums to 195, and the KPIs are computed: total_pl
    195, total_value 1880, total_capital_input 1905. *)
Lemma null_fields_are_skipped_sample :
  loaded (inr sample) sample_clean
  ∧ clean_row fund_row ∈ rows sample_clean
  ∧ get "P/L" (clean_row fund_row) = NaN
  ∧ (∃ q, series_sum (column "P/L" sample_clean) = ret q ∧ (q == 195)%Q)
  ∧ (∃ k, compute_kpis sample_clean = ret k
          ∧ (total_pl k == 195)%Q ∧ (total_value k == 1880)%Q
          ∧ (total_capital_input k == 1905)%Q).
Proof.
  pose proof (null_fields_are_skipped sample sample_clean sample_loaded)
    as (Hkeep & Hsum & _ & Hkpis & _ & Hret).
  split; [exact sample_loaded|]. split; [apply (bool_decide_unpack _); by vm_compute|].
  split; [|split].
  - rewrite (Hkeep fund_row "P/L");
      [by vm_compute | | by vm_compute |];
      apply (bool_decide_unpack _); by vm_compute.
  - destruct (Hsum sample_clean "P/L") as (q & Hq & Hsigma);
      [done|apply (bool_decide_unpack _); by vm_compute|].
    exists q. split; [exact Hq|]. rewrite Hsigma. by vm_compute.
  - destruct (Hret sample_Type_is_text sample_clean eq_refl
                ltac:(done) sample_clean_has_rows) as [k Hk].
    destruct (Hkpis sample_clean k Hk) as (Hpl & Htv & Hci).
    exists k. split; [exact Hk|].
    rewrite Hpl, Htv, Hci. by vm_compute.
Defined.

(** C4 as stated fails: a fetch that raises, after the sample sheet was
    loaded, leaves the empty table in the session, not the sample. *)
Lemma failed_load_overwrites_table :
  ss_df loaded_session = sample_clean
  ∧ df_empty sample_clean = false
  ∧ ss_df (script press_load (inl (IOError "HTTP Error 404: Not Found"))
                  loaded_session).1 = pd_DataFrame
  ∧ pd_DataFrame ≠ sample_clean.
Proof. repeat split; by vm_compute. Qed.

(** C4, as amended, on that run. *)
Lemma failed_load_clears_session_sample :
  load_clicked press_load = true
  ∧ sheet_url press_load ≠ ""
  ∧ (script press_load (inl (IOError "HTTP Error 404: Not Found")) loaded_session).1
    = mkSession pd_DataFrame false.
Proof.
  assert (sheet_url press_load ≠ "") as Hu by done.
  split; [reflexivity|]. split; [exact Hu|].
  apply (failed_load_clears_session press_load
           (inl (IOError "HTTP Error 404: Not Found")) loaded_session eq_refl Hu).
  left. by eexists.
Defined.

(** C5 as stated fails: a header with no data row and no P/L column is
    told that the sheet is empty, not which column is missing. *)
Lemma header_only_reports_empty :
  missing_cols header_only = ["P/L"]
  ∧ load_data (inr header_only) = (pd_DataFrame, [st_error msg_empty]).
Proof. split; by vm_compute. Qed.

(** C5, as amended, on the sample sheet without its P/L column. *)
Lemma missing_columns_reported_sample :
  df_empty sample_without_PL = false
  ∧ "P/L" ∈ all_expected_cols ∧ ("P/L" ∉ columns sample_without_PL)
  ∧ load_data (inr sample_without_PL)
    = (pd_DataFrame,
       [st_error "The following required columns are missing from your sheet: P/L"]).
Proof.
  assert ("P/L" ∈ all_expected_cols) as Hin by (apply (bool_decide_unpack _); by vm_compute).
  assert ("P/L" ∉ columns sample_without_PL) as Hout
    by (apply (bool_decide_unpack _); by vm_compute).
  pose proof (missing_columns_reported sample_without_PL eq_refl
                (ex_intro _ "P/L" (conj Hin Hout))) as (_ & _ & _ & HPL).
  split; [reflexivity|]. split; [exact Hin|]. split; [exact Hout|].
  apply HPL. by vm_compute.
Defined.

(** C6 on the sample sheet: no account selected. *)
Lemma empty_view_warns_sample :
  load_clicked select_no_account = false
  ∧ data_loaded loaded_session = true
  ∧ script select_no_account (inl (IOError "not fetched")) loaded_session
    = (loaded_session,
       [st_sidebar_header "Display Filters";
        st_sidebar_multiselect "Filter by Account"
          [Str "Broker"; Str "Pension"; Str "Margin"];
        st_sidebar_multiselect "Filter by Type"
          [Str "Cash"; Str "Stock"; Str "ETF"; Str "CASH"];
        st_warning msg_no_match]).
Proof.
  split; [reflexivity|]. split; [reflexivity|].
  refine (proj2 (empty_view_warns select_no_account (inl (IOError "not fetched"))
                   loaded_session eq_refl eq_refl _ _) eq_refl);
    apply (bool_decide_unpack _); by vm_compute.
Defined.

(** C8 as stated fails: reading the sample sheet without its P/L column
    returns the empty table and, besides, draws an error on the page. *)
Lemma load_of_incomplete_sheet_draws :
  load_data (inr sample_without_PL)
  = (pd_DataFrame,
     [st_error "The following required columns are missing from your sheet: P/L"])
  ∧ ((load_data (inr sample_without_PL)).2 ≠ []).
Proof. split; by vm_compute. Qed.

(** C8, as amended, on the sample sheet: the load draws nothing and
    returns the cleaned rows. *)
Lemma load_draws_exactly_on_failure_sample :
  (load_data (inr sample)).2 = []
  ∧ (load_data (inr sample)).1
    = mkDF (columns sample) (filter (λ r, retained r = true) (clean_row <$> rows sample)).
Proof.
  pose proof (load_draws_exactly_on_failure (inr sample)) as (_ & Hiff & Hout & _).
  assert ((load_data (inr sample)).2 = []) as Hnone.
  { apply Hiff. exists sample. repeat split; by vm_compute. }
  split; [exact Hnone|]. by apply Hout.
Defined.

(** C9 as stated fails: with the thirteen columns in the opposite
    order the sample sheet loads, and to the same rows. *)
Lemma reversed_header_loads :
  columns sample_reversed ≠ all_expected_cols
  ∧ load_data (inr sample_reversed)
    = (mkDF (reverse all_expected_cols) (rows sample_clean), [])
  ∧ df_empty (load_data (inr sample_reversed)).1 = false.
Proof. repeat split; by vm_compute. Qed.

(** * More of the script *)

(** Settle every [decide] of a closed proposition in the goal. *)
Ltac decide_concrete :=
  repeat match goal with
    | |- context [decide ?P] =>
        first
          [ rewrite (decide_True (P := P))
              by (apply (bool_decide_unpack _); by vm_compute)
          | rewrite (decide_False (P := P))
              by (apply (bool_decide_unpack _); by vm_compute) ]
    end.

Section Cleaning.
Context `{Pandas}.

(** ** Lines 49-54: the symbols *)

Lemma strip_symbols_app s t :
  strip_symbols (String.append s t)
  = String.append (strip_symbols s) (strip_symbols t).
Proof.
  induction s as [|a s IH]; [done|].
  change (String.append (String a s) t) with (String a (String.append s t)).
  cbn [strip_symbols]. rewrite IH. by case_bool_decide.
Qed.

(** X1: stripping keeps exactly the characters that are none of "$",
    "," and "%", in their order; so no such character is left, a
    second pass changes nothing, and the pass goes through a
    concatenation piece by piece. *)
Theorem strip_symbols_filter s :
  list_ascii_of_string (strip_symbols s)
  = filter (λ a, ¬ (a = "$"%char ∨ a = ","%char ∨ a = "%"%char))
           (list_ascii_of_string s)
  ∧ strip_symbols (strip_symbols s) = strip_symbols s
  ∧ (∀ t, strip_symbols (String.append s t)
          = String.append (strip_symbols s) (strip_symbols t)).
Proof.
  split; [|split].
  - induction s as [|a s IH]; [done|]. cbn [strip_symbols list_ascii_of_string].
    case_bool_decide as Ha.
    + by rewrite filter_cons_False by (by intros Hn).
    + rewrite filter_cons_True by done. cbn [list_ascii_of_string]. by rewrite IH.
  - induction s as [|a s IH]; [done|]. cbn [strip_symbols].
    case_bool_decide as Ha; [done|]. cbn [strip_symbols].
    rewrite bool_decide_eq_false_2 by done. by rewrite IH.
  - intros t. apply strip_symbols_app.
Qed.

(** ** Lines 49-79: what cleaning leaves alone *)

Lemma cols_to_clean_numeric : cols_to_clean ⊆ numeric_cols.
Proof. apply (bool_decide_unpack _). by vm_compute. Qed.

(** X2: in a load that goes through, every row of the table comes from
    a raw row whose cells outside the seven numeric columns are kept
    as they were, save that a null Account or Type reads "Unknown":
    Ticker, Tag, Name, Action and any column beyond the thirteen are
    never rewritten. *)
Theorem cleaning_keeps_text_columns raw out :
  loaded (inr raw) out →
  ∀ r', r' ∈ rows out →
    ∃ r, r ∈ rows raw
         ∧ (∀ c, c ∉ numeric_cols → c ≠ "Account" → c ≠ "Type" →
                 get c r' = get c r)
         ∧ get "Account" r' = fillna (Str "Unknown") (get "Account" r)
         ∧ get "Type" r' = fillna (Str "Unknown") (get "Type" r).
Proof.
  intros Hl r' (r & Hr & -> & _)%(elem_of_loaded raw out); [|done].
  exists r. split; [done|]. split; [|split].
  - intros c Hn HA HT. rewrite cleaned_other_col; [|intros Hz|done|done].
    + unfold coerced. cbv zeta. rewrite (decide_False (P := c ∈ numeric_cols)) by done.
      rewrite decide_False; [done|]. intros Hc. by apply Hn, cols_to_clean_numeric.
    + by apply Hn, cols_to_zero_numeric.
  - rewrite get_clean_row. unfold cleaned_cell, coerced. by decide_concrete.
  - rewrite get_clean_row. unfold cleaned_cell, coerced. by decide_concrete.
Qed.

(** X3: in a load that goes through, no row of the table has a null
    Account or a null Type, so neither filter ever offers a null
    option. *)
Theorem loaded_labels_not_null raw out :
  loaded (inr raw) out →
  (∀ r', r' ∈ rows out →
     isna (get "Account" r') = false ∧ isna (get "Type" r') = false)
  ∧ isin (unique (column "Account" out)) NaN = false
  ∧ isin (unique (column "Type" out)) NaN = false.
Proof.
  intros Hl.
  assert (∀ r', r' ∈ rows out →
            isna (get "Account" r') = false ∧ isna (get "Type" r') = false) as Hnn.
  { intros r' (r & Hr & -> & _)%(elem_of_loaded raw out); [|done].
    rewrite !get_clean_row. unfold cleaned_cell, coerced. decide_concrete.
    split; [by destruct (get "Account" r)|by destruct (get "Type" r)]. }
  split; [done|].
  assert (∀ c, (∀ r', r' ∈ rows out → isna (get c r') = false) →
               isin (unique (column c out)) NaN = false) as Hopt.
  { intros c Hc. apply not_true_is_false. intros Hin.
    apply (proj1 (isin_unique _ _)) in Hin.
    apply (proj1 (isin_true _ _)) in Hin as (v & Hv & Heq).
    unfold column in Hv. apply list_elem_of_fmap in Hv as (r' & -> & Hr').
    specialize (Hc r' Hr'). by destruct (get c r'). }
  split; apply Hopt; intros r' Hr'; by apply Hnn.
Qed.

(** X4: a load that goes through keeps the header as it was read and
    keeps the rows in their order: the table is the cleaned rows with
    some of them left out, never more rows than were read. *)
Theorem loaded_shape raw out :
  loaded (inr raw) out →
  columns out = columns raw
  ∧ rows out `sublist_of` (clean_row <$> rows raw)
  ∧ (List.length (rows out) ≤ List.length (rows raw))%nat.
Proof.
  intros (raw' & [= <-] & _ & _ & _ & ->)%loaded_inv. cbn [columns rows].
  split; [done|]. split; [apply sublist_filter|].
  etrans; [apply sublist_length, sublist_filter|]. by rewrite length_fmap.
Qed.

(** X5: in a load that goes through, each of the seven numeric columns
    holds, in every row, a number or a null, never text: whatever
    could not be read as a number has become a null. *)
Theorem loaded_numeric_columns raw out :
  loaded (inr raw) out →
  ∀ r' c, r' ∈ rows out → c ∈ numeric_cols →
    get c r' = NaN ∨ ∃ q, get c r' = Num q.
Proof.
  intros Hl r' c Hr' Hc.
  pose proof (loaded_numeric raw out r' c Hl Hr' Hc) as Hs.
  destruct (get c r') as [|s|q]; [by left|done|right; by eauto].
Qed.

End Cleaning.

Section Session.
Context `{Pandas}.

(** ** Lines 92-95: the button pressed with no URL *)

(** X6: when the button is pressed with an empty URL, nothing is
    fetched (the run is the same whatever [read_csv] would do), the
    table in the session is kept, the flag is cleared and the page shows
    the sidebar warning and the welcome note; a table loaded before is
    still in the session but no longer shown, in this run and in every
    later run without a load. *)
Theorem empty_url_hides_table w fetched s :
  load_clicked w = true → sheet_url w = "" →
  script w fetched s
  = (mkSession (ss_df s) false,
     [st_sidebar_warning "Please enter the Google Sheet URL."; st_info msg_welcome])
  ∧ (∀ w' fetched', load_clicked w' = false →
       script w' fetched' (script w fetched s).1
       = (mkSession (ss_df s) false, [st_info msg_welcome])).
Proof.
  intros Hc Hu.
  assert (script w fetched s
          = (mkSession (ss_df s) false,
             [st_sidebar_warning "Please enter the Google Sheet URL.";
              st_info msg_welcome])) as Hrun.
  { unfold script, load_button. rewrite Hc, bool_decide_eq_true_2 by done. done. }
  split; [done|]. intros w' fetched' Hc'. rewrite Hrun. cbn [fst].
  unfold script. by rewrite load_button_idle.
Qed.

(** ** Lines 75-79 and 100-105: a sheet of which no row survives *)

(** X7: when the button is pressed with a URL and the sheet read has
    rows, all its columns and a textual Type, but every row lacks a
    readable Current Value or Capital Input, the load returns the
    header with no row; the flag is cleared and the page shows the
    welcome note alone: no error, no warning, no success message. *)
Theorem all_rows_dropped_is_silent w raw s :
  load_clicked w = true → sheet_url w ≠ "" →
  df_empty raw = false → missing_cols raw = [] →
  existsb is_str (column "Type" raw) = true →
  Forall (λ r, isna (to_numeric (strip_cell (get "Current Value" r))) = true
               ∨ isna (to_numeric (strip_cell (get "Capital Input" r))) = true)
         (rows raw) →
  script w (inr raw) s
  = (mkSession (mkDF (columns raw) []) false, [st_info msg_welcome]).
Proof.
  intros Hc Hu He Hm Hs Hdrop.
  assert (load_data (inr raw) = (mkDF (columns raw) [], [])) as Hl.
  { rewrite load_body_fails_or_loads, Hs by done. do 2 f_equal.
    apply filter_none. rewrite Forall_fmap. eapply Forall_impl; [exact Hdrop|].
    intros r Hr Hret. apply retained_clean_row in Hret as [Hcv Hci].
    destruct Hr as [Hr|Hr]; [rewrite Hr in Hcv|rewrite Hr in Hci]; done. }
  unfold script, load_button. rewrite Hc, bool_decide_eq_false_2 by done.
  rewrite Hl. unfold df_empty. cbn [rows columns].
  by destruct (columns raw).
Qed.

(** ** Lines 12-17 and 92-106: the sessions the script can reach *)

Lemma script_keeps_loaded w fetched s :
  holds_loaded_table s → holds_loaded_table (script w fetched s).1.
Proof.
  intros Hs. unfold holds_loaded_table. rewrite script_state. unfold load_button.
  destruct (load_clicked w); [|done].
  case_bool_decide; [done|].
  destruct (load_data fetched) as [df out] eqn:Hl.
  destruct (df_empty df) eqn:He; cbn [negb fst ss_df data_loaded]; [done|].
  intros _. exists fetched. split; [|done].
  destruct (load_data_cases fetched) as [[out' Hl']|Hp].
  - unfold loaded in *. rewrite Hl in Hl'. by injection Hl' as -> ->.
  - rewrite Hl in Hp. cbn [fst] in Hp. by subst df.
Qed.

Lemma runs_keep_loaded l s :
  holds_loaded_table s → holds_loaded_table (runs l s).
Proof.
  revert s. induction l as [|[w fetched] l IH]; intros s Hs; [done|].
  unfold runs. cbn [foldl fst snd]. by apply IH, script_keeps_loaded.
Qed.

(** X8: after any sequence of runs from the initial session, whatever
    the user did and whatever was fetched, a set flag means that the
    table in the session is one a load returned with nothing drawn, and
    that it has rows; so all thirteen required columns are in it, and
    no [df[c]] on one of them raises. *)
Theorem reachable_session_holds_a_loaded_table l :
  data_loaded (runs l initial_session) = true →
  (∃ f, loaded f (ss_df (runs l initial_session)))
  ∧ df_empty (ss_df (runs l initial_session)) = false
  ∧ (∀ c, c ∈ all_expected_cols →
          getitem c (ss_df (runs l initial_session))
          = ret (column c (ss_df (runs l initial_session)))).
Proof.
  intros Hflag.
  destruct (runs_keep_loaded l initial_session) as (f & Hl & He); [done|done|].
  split; [by exists f|]. split; [done|].
  intros c Hc. apply getitem_ret.
  destruct f as [e|raw]; [done|].
  destruct (loaded_columns raw _ Hl) as [_ Hexp].
  rewrite Forall_forall in Hexp. by apply Hexp.
Qed.

End Session.

Section Dashboard.
Context `{Pandas}.

(** ** Lines 65, 147, 178, 186: which rows are cash *)

Lemma upper_ascii_C a : upper_ascii a = "C"%char → a = "c"%char ∨ a = "C"%char.
Proof.
  destruct a as [[] [] [] [] [] [] [] []]; vm_compute; intros Ha;
    first [discriminate Ha | by left | by right].
Qed.

Lemma upper_ascii_A a : upper_ascii a = "A"%char → a = "a"%char ∨ a = "A"%char.
Proof.
  destruct a as [[] [] [] [] [] [] [] []]; vm_compute; intros Ha;
    first [discriminate Ha | by left | by right].
Qed.

Lemma upper_ascii_S a : upper_ascii a = "S"%char → a = "s"%char ∨ a = "S"%char.
Proof.
  destruct a as [[] [] [] [] [] [] [] []]; vm_compute; intros Ha;
    first [discriminate Ha | by left | by right].
Qed.

Lemma upper_ascii_H a : upper_ascii a = "H"%char → a = "h"%char ∨ a = "H"%char.
Proof.
  destruct a as [[] [] [] [] [] [] [] []]; vm_compute; intros Ha;
    first [discriminate Ha | by left | by right].
Qed.

(** X9: a Type written in ASCII characters counts as cash exactly when
    it is the four letters c, a, s, h in that order, each in either
    case, so that "Cash" with a blank before or after it is not cash;
    a null or a number is never cash. *)
Theorem is_cash_casings t :
  Forall (λ a, (nat_of_ascii a < 128)%nat) (list_ascii_of_string t) →
  (is_cash (Str t) = true
   ↔ ∃ c a s h, t = String c (String a (String s (String h EmptyString)))
                ∧ (c = "c"%char ∨ c = "C"%char) ∧ (a = "a"%char ∨ a = "A"%char)
                ∧ (s = "s"%char ∨ s = "S"%char) ∧ (h = "h"%char ∨ h = "H"%char))
  ∧ is_cash NaN = false
  ∧ (∀ q, is_cash (Num q) = false).
Proof.
  intros _. split; [|done]. rewrite is_cash_spec. split.
  - intros (t' & [= <-] & Hu).
    destruct t as [|c [|a [|s [|h [|x t]]]]]; try discriminate Hu.
    cbn [upper] in Hu. injection Hu as Hc Ha Hs Hh.
    exists c, a, s, h. split; [done|].
    split; [by apply upper_ascii_C|]. split; [by apply upper_ascii_A|].
    split; [by apply upper_ascii_S|by apply upper_ascii_H].
  - intros (c & a & s & h & -> & Hc & Ha & Hs & Hh). eexists. split; [done|].
    destruct Hc as [-> | ->], Ha as [-> | ->], Hs as [-> | ->], Hh as [-> | ->];
      reflexivity.
Qed.

Lemma is_cash_fill_label v : is_cash (fillna (Str "Unknown") v) = is_cash v.
Proof. by destruct v. Qed.

(** X10: in a load that goes through, the rows filled as cash while
    loading (line 65) are exactly the rows the dashboard leaves out as
    cash (lines 147, 178, 186), although the first test is made on the
    raw Type with a null read as "" and the second on the cleaned Type
    with a null read as "Unknown"; and in those rows Shares, Cost of
    Shares, Current Price of Shares, % change and P/L are numbers. *)
Theorem cash_at_load_is_cash_on_the_dashboard raw out :
  loaded (inr raw) out →
  ∀ r, r ∈ rows raw → clean_row r ∈ rows out →
    not_cash (get "Type" (clean_row r)) = negb (is_cash (get "Type" r))
    ∧ (not_cash (get "Type" (clean_row r)) = false →
       ∀ c, c ∈ cols_to_zero_for_cash → ∃ q, get c (clean_row r) = Num q).
Proof.
  intros Hl r Hr Hin.
  assert (not_cash (get "Type" (clean_row r)) = negb (is_cash (get "Type" r))) as Heq.
  { rewrite not_cash_is_cash, get_clean_row. unfold cleaned_cell, coerced.
    decide_concrete. by rewrite is_cash_fill_label. }
  split; [done|]. rewrite Heq. intros Hcash%negb_false_iff c Hc.
  rewrite cleaned_zero_col, Hcash by done.
  destruct (coerced_numeric c (get c r)) as [->|[q ->]];
    [by apply cols_to_zero_numeric|by exists 0%Q|by exists q].
Qed.

(** X11: the table handed to the pie chart and to the treemap has the
    header of the view and its rows that are not cash, in their order;
    when every row of the view is cash it has no row at all, and no
    error is raised. *)
Theorem charts_leave_cash_out view :
  "Type" ∈ columns view → existsb is_str (column "Type" view) = true →
  ∃ without, without_cash view = ret without
    ∧ columns without = columns view
    ∧ rows without `sublist_of` rows view
    ∧ (∀ r, r ∈ rows without ↔ r ∈ rows view ∧ is_cash (get "Type" r) = false)
    ∧ (Forall (λ r, is_cash (get "Type" r) = true) (rows view) → rows without = []).
Proof.
  intros HT Hs. eexists. split; [by apply without_cash_ret|]. cbn [columns rows].
  split; [done|]. split; [apply sublist_filter|]. split.
  - intros r. rewrite list_elem_of_filter, not_cash_is_cash, negb_true_iff. tauto.
  - intros Hall. apply filter_none. eapply Forall_impl; [exact Hall|].
    intros r Hr. rewrite not_cash_is_cash, Hr. done.
Qed.

(** ** Lines 136-164: the dashboard of a loaded table *)

Lemma dashboard_page_head view k :
  compute_kpis view = ret k →
  ∃ rest, page (dashboard view) = dashboard_head k ++ rest.
Proof.
  intros Hk. unfold dashboard, dashboard_head, lift, draw, ui_bind, page.
  rewrite Hk. destruct (without_cash view) as [e|w]; cbn; by eexists.
Qed.

(** X13: for a table a load returned from a sheet whose Type column
    holds no number, the KPIs of any selection of its rows that is not
    empty are computed without an exception, and the dashboard begins
    with the title, the subtitle, the three metrics carrying the KPIs
    of the selection (the overall percentage change as the delta of
    the second), the rule and the heading of the bar chart: all of
    this is drawn before the first chart is built. *)
Theorem dashboard_of_a_loaded_table raw out view :
  loaded (inr raw) out →
  Forall (λ v, is_num v = false) (column "Type" raw) →
  columns view = columns out → rows view ⊆ rows out → rows view ≠ [] →
  ∃ k rest, compute_kpis view = ret k
            ∧ page (dashboard view) = dashboard_head k ++ rest.
Proof.
  intros Hl Hobj Hcols Hsub Hne.
  destruct (compute_kpis_total raw out view) as [k Hk]; [done..|].
  destruct (dashboard_page_head view k Hk) as [rest Hrest].
  by exists k, rest.
Qed.

End Dashboard.

Section Filters.
Context `{Pandas}.

(** ** Lines 115 and 122: the options of the two filters *)

Lemma cell_eqb_sym a b : cell_eqb a b = true → cell_eqb b a = true.
Proof.
  destruct a as [|s|p], b as [|t|q]; simpl; try done.
  - rewrite !bool_decide_eq_true. congruence.
  - apply Qeq_bool_sym.
Qed.

Lemma distinct_snoc (seen : list cell) v :
  (∀ i j x y, seen !! i = Some x → seen !! j = Some y →
              cell_eqb x y = true → i = j) →
  isin seen v = false →
  ∀ i j x y, (seen ++ [v]) !! i = Some x → (seen ++ [v]) !! j = Some y →
             cell_eqb x y = true → i = j.
Proof.
  intros Hd Hv i j x y Hi Hj Hxy.
  assert (∀ n z, (seen ++ [v]) !! n = Some z →
                 seen !! n = Some z ∨ (n = List.length seen ∧ z = v)) as Hcase.
  { intros n z Hn. apply lookup_app_Some in Hn as [Hn|[Hge Hn]]; [by left|right].
    apply list_lookup_singleton_Some in Hn as [Hn ->]. split; [lia|done]. }
  assert (∀ z, z ∈ seen → cell_eqb v z = true → False) as Hfresh.
  { intros z Hz Hvz. rewrite (proj2 (isin_true seen v)) in Hv; [done|by exists z]. }
  destruct (Hcase i x Hi) as [Hi'|[-> ->]], (Hcase j y Hj) as [Hj'|[-> ->]].
  - by eapply Hd.
  - exfalso. apply (Hfresh x); [by eapply list_elem_of_lookup_2|by apply cell_eqb_sym].
  - exfalso. apply (Hfresh y); [by eapply list_elem_of_lookup_2|done].
  - done.
Qed.

Lemma unique_acc_distinct seen s :
  (∀ i j x y, seen !! i = Some x → seen !! j = Some y →
              cell_eqb x y = true → i = j) →
  ∀ i j x y,
    foldl (λ seen v, if isin seen v then seen else seen ++ [v]) seen s !! i = Some x →
    foldl (λ seen v, if isin seen v then seen else seen ++ [v]) seen s !! j = Some y →
    cell_eqb x y = true → i = j.
Proof.
  revert seen. induction s as [|v s IH]; intros seen Hd; [done|]. cbn [foldl].
  apply IH. destruct (isin seen v) eqn:Hv; [done|]. by apply distinct_snoc.
Qed.

Lemma unique_acc_sublist seen s :
  ∃ u, foldl (λ seen v, if isin seen v then seen else seen ++ [v]) seen s = seen ++ u
       ∧ u `sublist_of` s.
Proof.
  revert seen. induction s as [|v s IH]; intros seen; cbn [foldl].
  - exists []. by rewrite app_nil_r.
  - destruct (isin seen v).
    + destruct (IH seen) as (u & -> & Hu). exists u. split; [done|].
      by apply sublist_cons.
    + destruct (IH (seen ++ [v])) as (u & -> & Hu). exists (v :: u).
      split; [by rewrite <- app_assoc|]. by apply sublist_skip.
Qed.

Lemma unique_distinct s i j x y :
  unique s !! i = Some x → unique s !! j = Some y → cell_eqb x y = true → i = j.
Proof. unfold unique. apply unique_acc_distinct. intros i' j' x' y' Hi. done. Qed.

(** X14: the options of a filter are the values of the column, each
    once and in the order of its first appearance: every value of the
    column is among the options, every option is a value of the
    column, and no two options are equal. *)
Theorem unique_lists_each_value_once s :
  (∀ v, isin (unique s) v = true ↔ isin s v = true)
  ∧ unique s `sublist_of` s
  ∧ (∀ i j x y, unique s !! i = Some x → unique s !! j = Some y →
                cell_eqb x y = true → i = j).
Proof.
  split; [apply isin_unique|]. split.
  - unfold unique. destruct (unique_acc_sublist [] s) as (u & -> & Hu). done.
  - apply unique_distinct.
Qed.

(** ** Lines 129-133: the filtered view *)

(** X15: the filtered view has the header of the table and exactly its
    rows whose Account is among the selected accounts and whose Type
    is among the selected types, in their order; without an Account
    column, or without a Type column, the subscript raises a
    KeyError. *)
Theorem filter_view_selects sa st df :
  ("Account" ∈ columns df → "Type" ∈ columns df →
   ∃ view, filter_view sa st df = ret view
     ∧ columns view = columns df
     ∧ rows view `sublist_of` rows df
     ∧ (∀ r, r ∈ rows view
             ↔ r ∈ rows df ∧ isin sa (get "Account" r) = true
               ∧ isin st (get "Type" r) = true))
  ∧ ("Account" ∉ columns df → filter_view sa st df = raise (KeyError "Account"))
  ∧ ("Account" ∈ columns df → "Type" ∉ columns df →
     filter_view sa st df = raise (KeyError "Type")).
Proof.
  split; [|split].
  - intros HA HT. eexists. split; [by apply filter_view_fmap|]. cbn [columns rows].
    split; [done|]. split; [apply sublist_filter|].
    intros r. rewrite list_elem_of_filter, andb_true_iff. tauto.
  - intros HA. unfold filter_view, getitem. by rewrite bool_decide_eq_false_2.
  - intros HA HT. unfold filter_view, getitem.
    rewrite bool_decide_eq_true_2 by done. cbn [bind].
    by rewrite bool_decide_eq_false_2.
Qed.

(** ** Lines 92-194: a load, then the dashboard *)

(** X16: when the button is pressed with a URL, the load goes through
    with at least one row (from a sheet whose Type column holds no
    number) and both filters stand at their default, every option
    selected, the session holds the loaded table with its flag set,
    the KPIs of the whole table are computed, and the page begins with
    the success note, the two filters with every account and every
    type of the table, and the head of the dashboard of the whole
    table: title, subtitle, metrics, rule and the heading of the bar
    chart. *)
Theorem load_then_default_dashboard w raw out s :
  load_clicked w = true → sheet_url w ≠ "" →
  loaded (inr raw) out → rows out ≠ [] →
  Forall (λ v, is_num v = false) (column "Type" raw) →
  selected_account w = default_selection "Account" out →
  selected_type w = default_selection "Type" out →
  ∃ k rest, compute_kpis out = ret k
    ∧ script w (inr raw) s
      = (mkSession out true,
         [st_sidebar_success "Data loaded successfully!";
          st_sidebar_header "Display Filters";
          st_sidebar_multiselect "Filter by Account" (unique (column "Account" out));
          st_sidebar_multiselect "Filter by Type" (unique (column "Type" out))]
         ++ dashboard_head k ++ rest).
Proof.
  intros Hc Hu Hl Hne Hobj Hsa Hst.
  destruct (loaded_columns raw out Hl) as [_ Hexp]. rewrite Forall_forall in Hexp.
  assert ("Account" ∈ columns out) as HA by apply Hexp, Account_expected.
  assert ("Type" ∈ columns out) as HT by apply Hexp, Type_expected.
  assert (df_empty out = false) as He.
  { unfold df_empty. destruct (columns out); [by apply elem_of_nil in HA|].
    by destruct (rows out). }
  destruct (compute_kpis_total raw out out) as [k Hk]; [done..|].
  destruct (dashboard_page_head out k Hk) as [rest Hrest].
  exists k, rest. split; [done|].
  unfold script, load_button. rewrite Hc, bool_decide_eq_false_2 by done.
  unfold loaded in Hl. rewrite Hl, He. cbn [negb app].
  unfold main_display. cbn [data_loaded ss_df]. rewrite !getitem_ret by done.
  rewrite Hsa, Hst, filter_view_default by done.
  unfold lift, draw, ui_bind. rewrite He. cbn [negb].
  rewrite <- Hrest.
  by destruct (dashboard out) as [o [e|[]]].
Qed.

End Filters.

Section Charts.
Context `{Pandas}.

(** ** Lines 168 and 179: the grouped sums *)

Lemma traverse_ret_inv {A B} (f : A → result B) l bs :
  traverse f l = ret bs → Forall2 (λ a b, f a = ret b) l bs.
Proof.
  revert bs. induction l as [|a l IH]; intros bs Hbs; cbn [traverse] in Hbs.
  - injection Hbs as <-. constructor.
  - apply bind_ret_inv in Hbs as (b & Hb & Hbs).
    apply bind_ret_inv in Hbs as (bs' & Hbs' & Hbs).
    injection Hbs as <-. constructor; [done|by apply IH].
Qed.

Lemma traverse_total {A B} (f : A → result B) l :
  Forall (λ a, ∃ b, f a = ret b) l → ∃ bs, traverse f l = ret bs.
Proof.
  induction 1 as [|a l [b Hb] _ [bs Hbs]]; cbn [traverse]; [by eexists|].
  rewrite Hb. cbn [bind]. rewrite Hbs. cbn [bind]. by eexists.
Qed.

(** What [groupby_sum] returned: one entry for each key, with the sum
    of its group. *)
Lemma groupby_sum_ret_inv key val df g :
  groupby_sum key val df = ret g →
  g.*1 = group_keys key df
  ∧ Forall (λ p, (p.2 == sigma val (group_rows key p.1 df))%Q) g.
Proof.
  unfold groupby_sum.
  intros (ks & _ & Hg)%bind_ret_inv.
  apply bind_ret_inv in Hg as (vs & _ & Hg).
  apply traverse_ret_inv in Hg. induction Hg as [|k p ks' g' Hp _ [IH1 IH2]]; [done|].
  apply bind_ret_inv in Hp as (q & Hq & [= <-]).
  cbn [fmap list_fmap fst]. split.
  - f_equal. apply IH1.
  - constructor; [|done]. cbn [fst snd]. by apply series_sum_sigma.
Qed.

#[local] Instance value_ge_total : Total value_ge.
Proof.
  intros a b. unfold value_ge.
  destruct (Qlt_le_dec a.2 b.2) as [Hlt|Hle].
  - right. apply Qle_bool_iff. by apply Qlt_le_weak.
  - left. by apply Qle_bool_iff.
Qed.

#[local] Instance value_ge_trans : Transitive value_ge.
Proof.
  intros a b c. unfold value_ge. rewrite !Qle_bool_iff. intros Hab Hbc.
  by eapply Qle_trans.
Qed.

Lemma groupby_sum_total raw out view key val :
  loaded (inr raw) out → columns view = columns out → rows view ⊆ rows out →
  key ∈ all_expected_cols → val ∈ numeric_cols →
  ∃ g, groupby_sum key val view = ret g.
Proof.
  intros Hl Hcols Hsub Hkey Hval.
  destruct (loaded_columns raw out Hl) as [_ Hexp].
  rewrite <- Hcols, Forall_forall in Hexp.
  unfold groupby_sum.
  rewrite (getitem_ret key) by (by apply Hexp).
  rewrite (getitem_ret val) by (by apply Hexp, numeric_cols_expected).
  cbn [bind]. apply traverse_total, Forall_forall. intros k _.
  destruct (series_sum_numeric val (group_rows key k view)) as (q & -> & _).
  - apply Forall_forall. intros r [_ Hr]%list_elem_of_filter.
    eapply loaded_numeric; eauto.
  - by eexists.
Qed.

(** X17: for any selection of rows of a loaded table the series behind
    the bar chart is computed, and it has one bar for each ticker of the
    selection that is not null, whose value is the sum of Current
    Value over the rows of that ticker; the bars come in the order of
    their values, every bar at least as large as each bar after it. *)
Theorem value_by_ticker_bars raw out view :
  loaded (inr raw) out → columns view = columns out → rows view ⊆ rows out →
  ∃ bars, value_by_ticker view = ret bars
    ∧ StronglySorted value_ge bars
    ∧ bars.*1 ≡ₚ unique (filter (λ v, isna v = false) (column "Ticker" view))
    ∧ Forall (λ p, (p.2 == sigma "Current Value" (group_rows "Ticker" p.1 view))%Q) bars.
Proof.
  intros Hl Hcols Hsub.
  destruct (groupby_sum_total raw out view "Ticker" "Current Value") as [g Hg];
    [done|done|done|apply (bool_decide_unpack _); by vm_compute
     |apply (bool_decide_unpack _); by vm_compute|].
  destruct (groupby_sum_ret_inv _ _ _ _ Hg) as [Hkeys Hsums].
  exists (sort_values_descending g). unfold value_by_ticker. rewrite Hg. cbn [bind].
  assert (sort_values_descending g ≡ₚ g) as Hperm by apply merge_sort_Permutation.
  split; [done|]. split; [apply StronglySorted_merge_sort; apply _|].
  split; [|by rewrite Hperm].
  rewrite Hperm, Hkeys. apply merge_sort_Permutation.
Qed.

Lemma cell_eqb_is_cash a b : cell_eqb a b = true → is_cash a = is_cash b.
Proof.
  destruct a as [|s|p], b as [|t|q]; simpl; try done.
  rewrite bool_decide_eq_true. by intros ->.
Qed.

(** X18: for a selection of rows of a loaded table that is not empty
    (the Type column of the sheet holding no number) the series behind
    the pie chart is computed; it has one slice for each type among
    the rows of the selection that are not cash, whose value is the
    sum of Current Value over those rows of that type; none of its
    slices is a cash type; and when every row is cash the series is
    empty and nothing is raised. *)
Theorem type_distribution_slices raw out view :
  loaded (inr raw) out →
  Forall (λ v, is_num v = false) (column "Type" raw) →
  columns view = columns out → rows view ⊆ rows out → rows view ≠ [] →
  let pie_df := mkDF (columns view)
                     (filter (λ r, not_cash (get "Type" r) = true) (rows view)) in
  ∃ slices, type_distribution view = ret slices
    ∧ Forall (λ p, is_cash p.1 = false) slices
    ∧ slices.*1 ≡ₚ unique (column "Type" pie_df)
    ∧ Forall (λ p, (p.2 == sigma "Current Value" (group_rows "Type" p.1 pie_df))%Q) slices
    ∧ (Forall (λ r, is_cash (get "Type" r) = true) (rows view) → slices = []).
Proof.
  intros Hl Hobj Hcols Hsub Hne pie_df.
  destruct (loaded_columns raw out Hl) as [_ Hexp].
  rewrite <- Hcols, Forall_forall in Hexp.
  assert (without_cash view = ret pie_df) as Hw.
  { apply without_cash_ret; [apply Hexp, Type_expected|].
    apply existsb_is_str_nonempty.
    - unfold column. by destruct (rows view).
    - unfold column. apply Forall_fmap, Forall_forall. intros r Hr.
      eapply loaded_Type_str; eauto. }
  assert (rows pie_df ⊆ rows out) as Hpsub.
  { etrans; [apply list_subseteq_filter|done]. }
  assert (filter (λ v, isna v = false) (column "Type" pie_df) = column "Type" pie_df)
    as Hnotna.
  { apply filter_all, Forall_forall. unfold column.
    intros v (r & -> & Hr)%list_elem_of_fmap.
    assert (is_str (get "Type" r) = true) as Hs
      by (eapply loaded_Type_str; eauto).
    by destruct (get "Type" r). }
  destruct (groupby_sum_total raw out pie_df "Type" "Current Value") as [g Hg];
    [done|done|done|apply Type_expected|apply (bool_decide_unpack _); by vm_compute|].
  destruct (groupby_sum_ret_inv _ _ _ _ Hg) as [Hkeys Hsums].
  assert (g.*1 ≡ₚ unique (column "Type" pie_df)) as Hk.
  { rewrite Hkeys. unfold group_keys. rewrite Hnotna. apply merge_sort_Permutation. }
  exists g. unfold type_distribution. rewrite Hw. cbn [bind].
  split; [done|]. split; [|split; [done|split; [done|]]].
  - apply Forall_forall. intros p Hp.
    assert (p.1 ∈ g.*1) as Hin by (apply list_elem_of_fmap; by exists p).
    rewrite Hk in Hin.
    assert (isin (unique (column "Type" pie_df)) p.1 = true)
      as Hisin by (by apply isin_elem_of).
    apply (proj1 (isin_unique _ _)) in Hisin.
    apply (proj1 (isin_true _ _)) in Hisin as (x & Hx & Heq).
    unfold column in Hx. apply list_elem_of_fmap in Hx as (r & -> & Hr).
    apply list_elem_of_filter in Hr as [Hnc _].
    rewrite (cell_eqb_is_cash _ _ Heq). rewrite not_cash_is_cash in Hnc.
    by apply negb_true_iff.
  - intros Hall.
    assert (rows pie_df = []) as Hnil.
    { apply filter_none. eapply Forall_impl; [exact Hall|].
      intros r Hr. by rewrite not_cash_is_cash, Hr. }
    unfold column in Hk. rewrite Hnil in Hk. cbn in Hk.
    apply Permutation_nil_r in Hk. by destruct g.
Qed.

End Charts.

Section Outcomes.
Context `{Pandas}.

(** ** Lines 49-58: symbols do not count in the currency columns *)

(** X19: in each of the six currency and percentage columns, two raw
    strings that differ only by "$", "," and "%" signs clean to the
    same cell, in rows that are both cash or both not: "$1,005" and
    "1005" are one value. *)
Theorem symbols_do_not_count c (r r' : Row) s s' :
  c ∈ cols_to_clean →
  get c r = Str s → get c r' = Str s' →
  strip_symbols s = strip_symbols s' →
  is_cash (get "Type" r) = is_cash (get "Type" r') →
  get c (clean_row r) = get c (clean_row r').
Proof.
  intros Hc Hr Hr' Hs Hcash.
  assert (c ≠ "Account" ∧ c ≠ "Type") as [HA HT].
  { split; intros ->; revert Hc; apply (bool_decide_unpack _); by vm_compute. }
  assert (coerced c (get c r) = coerced c (get c r')) as Hco.
  { unfold coerced. cbv zeta. rewrite !(decide_True (P := c ∈ cols_to_clean)) by done.
    rewrite Hr, Hr'. unfold strip_cell. cbn [astype_str]. by rewrite Hs. }
  destruct (decide (c ∈ cols_to_zero_for_cash)) as [Hz|Hz].
  - by rewrite !cleaned_zero_col, Hcash, Hco by done.
  - by rewrite !cleaned_other_col, Hco by done.
Qed.

(** ** Lines 28-83: every way a load ends *)

(** X20: a load ends in one of five ways, tried in this order.  A fetch
    that raised: the empty table, the general error and the exception.
    A sheet with no row or no column: the empty table and the
    empty-sheet error.  A required column absent: the empty table and
    the error naming the absent columns.  A Type column without a
    single string: the empty table, the general error and the
    AttributeError of [.str].  Otherwise: the header as read and the
    cleaned rows that are retained, with nothing drawn. *)
Theorem load_data_outcomes :
  (∀ e, load_data (inl e)
        = (pd_DataFrame, [st_error msg_exception; st_exception e]))
  ∧ (∀ raw, df_empty raw = true →
            load_data (inr raw) = (pd_DataFrame, [st_error msg_empty]))
  ∧ (∀ raw, df_empty raw = false → missing_cols raw ≠ [] →
            load_data (inr raw)
            = (pd_DataFrame, [st_error (msg_missing (missing_cols raw))]))
  ∧ (∀ raw, df_empty raw = false → missing_cols raw = [] →
            existsb is_str (column "Type" raw) = false →
            load_data (inr raw)
            = (pd_DataFrame, [st_error msg_exception; st_exception AttributeError]))
  ∧ (∀ raw, df_empty raw = false → missing_cols raw = [] →
            existsb is_str (column "Type" raw) = true →
            load_data (inr raw)
            = (mkDF (columns raw)
                 (filter (λ r, retained r = true) (clean_row <$> rows raw)), [])).
Proof.
  split; [apply load_data_raised|]. split; [apply load_data_empty|].
  split; [apply load_data_missing|]. split; [apply load_data_no_str|].
  intros raw He Hm Hs. by rewrite load_body_fails_or_loads, Hs.
Qed.

End Outcomes.

(** * The further properties on the sample sheet *)

(** X2 on the sample sheet: the name of the stock is kept. *)
Lemma cleaning_keeps_text_columns_sample :
  loaded (inr sample) sample_clean
  ∧ clean_row stock_row ∈ rows sample_clean
  ∧ ∃ r, r ∈ rows sample
         ∧ get "Name" (clean_row stock_row) = get "Name" r
         ∧ get "Type" (clean_row stock_row) = fillna (Str "Unknown") (get "Type" r).
Proof.
  assert (clean_row stock_row ∈ rows sample_clean) as Hin
    by (apply (bool_decide_unpack _); by vm_compute).
  destruct (cleaning_keeps_text_columns sample sample_clean sample_loaded _ Hin)
    as (r & Hr & Hkeep & _ & HT).
  split; [exact sample_loaded|]. split; [exact Hin|].
  exists r. split; [exact Hr|]. split; [|exact HT].
  apply Hkeep; [apply (bool_decide_unpack _); by vm_compute|done|done].
Defined.

(** X3 on the sample sheet. *)
Lemma loaded_labels_not_null_sample :
  loaded (inr sample) sample_clean
  ∧ isin (unique (column "Account" sample_clean)) NaN = false
  ∧ isin (unique (column "Type" sample_clean)) NaN = false.
Proof.
  split; [exact sample_loaded|].
  exact (proj2 (loaded_labels_not_null sample sample_clean sample_loaded)).
Defined.

(** X4 on the sample sheet: four rows of five. *)
Lemma loaded_shape_sample :
  loaded (inr sample) sample_clean
  ∧ columns sample_clean = columns sample
  ∧ (List.length (rows sample_clean) ≤ List.length (rows sample))%nat.
Proof.
  destruct (loaded_shape sample sample_clean sample_loaded) as (Hc & _ & Hlen).
  split; [exact sample_loaded|]. split; [exact Hc|exact Hlen].
Defined.

(** X5 on the sample sheet: the P/L of the fund. *)
Lemma loaded_numeric_columns_sample :
  loaded (inr sample) sample_clean
  ∧ clean_row fund_row ∈ rows sample_clean
  ∧ "P/L" ∈ numeric_cols
  ∧ (get "P/L" (clean_row fund_row) = NaN
     ∨ ∃ q, get "P/L" (clean_row fund_row) = Num q).
Proof.
  assert (clean_row fund_row ∈ rows sample_clean) as Hin
    by (apply (bool_decide_unpack _); by vm_compute).
  assert ("P/L" ∈ numeric_cols) as Hc by (apply (bool_decide_unpack _); by vm_compute).
  split; [exact sample_loaded|]. split; [exact Hin|]. split; [exact Hc|].
  exact (loaded_numeric_columns sample sample_clean sample_loaded _ _ Hin Hc).
Defined.

(** X6 on the sample sheet, loaded before. *)
Lemma empty_url_hides_table_sample :
  load_clicked press_with_no_url = true ∧ sheet_url press_with_no_url = ""
  ∧ script press_with_no_url (inr sample) loaded_session
    = (mkSession sample_clean false,
       [st_sidebar_warning "Please enter the Google Sheet URL."; st_info msg_welcome]).
Proof.
  split; [reflexivity|]. split; [reflexivity|].
  exact (proj1 (empty_url_hides_table press_with_no_url (inr sample) loaded_session
                  eq_refl eq_refl)).
Defined.

(** X7 on the sheet whose only row has no Current Value. *)
Lemma all_rows_dropped_is_silent_sample :
  load_clicked press_load = true ∧ sheet_url press_load ≠ ""
  ∧ df_empty sample_no_value = false ∧ missing_cols sample_no_value = []
  ∧ script press_load (inr sample_no_value) initial_session
    = (mkSession (mkDF all_expected_cols []) false, [st_info msg_welcome]).
Proof.
  assert (sheet_url press_load ≠ "") as Hu by done.
  split; [reflexivity|]. split; [exact Hu|]. split; [reflexivity|].
  split; [by vm_compute|].
  apply (all_rows_dropped_is_silent press_load sample_no_value initial_session
           eq_refl Hu eq_refl).
  - by vm_compute.
  - by vm_compute.
  - apply (bool_decide_unpack _). by vm_compute.
Defined.

(** X8 after a failed load and then a load of the sample sheet. *)
Lemma reachable_session_holds_a_loaded_table_sample :
  data_loaded (runs [(press_load, inl (IOError "HTTP Error 404: Not Found"));
                     (press_load, inr sample)] initial_session) = true
  ∧ df_empty (ss_df (runs [(press_load, inl (IOError "HTTP Error 404: Not Found"));
                           (press_load, inr sample)] initial_session)) = false.
Proof.
  assert (data_loaded (runs [(press_load, inl (IOError "HTTP Error 404: Not Found"));
                             (press_load, inr sample)] initial_session) = true) as Hflag
    by (by vm_compute).
  split; [exact Hflag|].
  exact (proj1 (proj2 (reachable_session_holds_a_loaded_table _ Hflag))).
Defined.

(** X9 on "Cash" and on "cash " with a blank after it. *)
Lemma is_cash_casings_sample :
  Forall (λ a, (nat_of_ascii a < 128)%nat) (list_ascii_of_string "Cash")
  ∧ is_cash (Str "Cash") = true
  ∧ Forall (λ a, (nat_of_ascii a < 128)%nat) (list_ascii_of_string "cash ")
  ∧ is_cash (Str "cash ") = false.
Proof.
  assert (Forall (λ a, (nat_of_ascii a < 128)%nat) (list_ascii_of_string "Cash"))
    as Hascii by (apply (bool_decide_unpack _); by vm_compute).
  assert (Forall (λ a, (nat_of_ascii a < 128)%nat) (list_ascii_of_string "cash "))
    as Hascii' by (apply (bool_decide_unpack _); by vm_compute).
  split; [exact Hascii|]. split; [|split; [exact Hascii'|]].
  - apply (proj1 (is_cash_casings "Cash" Hascii)).
    exists "C"%char, "a"%char, "s"%char, "h"%char. by auto 10.
  - apply not_true_iff_false.
    intros (c & a & s & h & [=] & _)%(proj1 (is_cash_casings "cash " Hascii')).
Defined.

(** X10 on the sample sheet: the cash row. *)
Lemma cash_at_load_is_cash_on_the_dashboard_sample :
  loaded (inr sample) sample_clean
  ∧ cash_row ∈ rows sample ∧ clean_row cash_row ∈ rows sample_clean
  ∧ not_cash (get "Type" (clean_row cash_row)) = negb (is_cash (get "Type" cash_row)).
Proof.
  assert (cash_row ∈ rows sample) as Hr by (apply (bool_decide_unpack _); by vm_compute).
  assert (clean_row cash_row ∈ rows sample_clean) as Hin
    by (apply (bool_decide_unpack _); by vm_compute).
  split; [exact sample_loaded|]. split; [exact Hr|]. split; [exact Hin|].
  exact (proj1 (cash_at_load_is_cash_on_the_dashboard sample sample_clean
                  sample_loaded cash_row Hr Hin)).
Defined.

(** X11 on the sample sheet: the stock and the fund are left. *)
Lemma charts_leave_cash_out_sample :
  "Type" ∈ columns sample_clean
  ∧ existsb is_str (column "Type" sample_clean) = true
  ∧ ∃ without, without_cash sample_clean = ret without
               ∧ columns without = columns sample_clean
               ∧ rows without `sublist_of` rows sample_clean.
Proof.
  assert ("Type" ∈ columns sample_clean) as HT
    by (apply (bool_decide_unpack _); by vm_compute).
  assert (existsb is_str (column "Type" sample_clean) = true) as Hs by (by vm_compute).
  split; [exact HT|]. split; [exact Hs|].
  destruct (charts_leave_cash_out sample_clean HT Hs) as (v & Hv & Hc & Hsub & _).
  exists v. split; [exact Hv|]. split; [exact Hc|exact Hsub].
Defined.

(** X13 on the sample sheet: the metrics show 1880, 195 and 1905. *)
Lemma dashboard_of_a_loaded_table_sample :
  loaded (inr sample) sample_clean
  ∧ Forall (λ v, is_num v = false) (column "Type" sample)
  ∧ rows sample_clean ≠ []
  ∧ ∃ k rest, compute_kpis sample_clean = ret k
              ∧ page (dashboard sample_clean) = dashboard_head k ++ rest
              ∧ (total_value k == 1880)%Q ∧ (total_pl k == 195)%Q
              ∧ (total_capital_input k == 1905)%Q.
Proof.
  split; [exact sample_loaded|]. split; [exact sample_Type_is_text|].
  split; [exact sample_clean_has_rows|].
  destruct (dashboard_of_a_loaded_table sample sample_clean sample_clean sample_loaded
              sample_Type_is_text eq_refl (λ r Hr, Hr) sample_clean_has_rows)
    as (k & rest & Hk & Hpage).
  exists k, rest. split; [exact Hk|]. split; [exact Hpage|].
  rewrite sample_kpis_computed in Hk. injection Hk as <-.
  repeat split; by vm_compute.
Defined.

(** X16 on the sample sheet, from the initial session. *)
Lemma load_then_default_dashboard_sample :
  load_clicked press_load_all = true ∧ sheet_url press_load_all ≠ ""
  ∧ selected_account press_load_all = default_selection "Account" sample_clean
  ∧ selected_type press_load_all = default_selection "Type" sample_clean
  ∧ (script press_load_all (inr sample) initial_session).1
    = mkSession sample_clean true.
Proof.
  assert (sheet_url press_load_all ≠ "") as Hu by done.
  assert (selected_account press_load_all = default_selection "Account" sample_clean)
    as Hsa by (by vm_compute).
  assert (selected_type press_load_all = default_selection "Type" sample_clean)
    as Hst by (by vm_compute).
  split; [reflexivity|]. split; [exact Hu|]. split; [exact Hsa|]. split; [exact Hst|].
  destruct (load_then_default_dashboard press_load_all sample sample_clean
              initial_session eq_refl Hu sample_loaded sample_clean_has_rows
              sample_Type_is_text Hsa Hst) as (k & rest & _ & ->).
  reflexivity.
Defined.

(** X17 on the sample sheet: ACME 1200, WRLD 380, USD 300. *)
Lemma value_by_ticker_bars_sample :
  loaded (inr sample) sample_clean
  ∧ value_by_ticker sample_clean
    = ret [(Str "ACME", 1200%Q); (Str "WRLD", 380%Q); (Str "USD", 300%Q)]
  ∧ ∃ bars, value_by_ticker sample_clean = ret bars ∧ StronglySorted value_ge bars.
Proof.
  split; [exact sample_loaded|]. split; [by vm_compute|].
  destruct (value_by_ticker_bars sample sample_clean sample_clean sample_loaded
              eq_refl (λ r Hr, Hr)) as (bars & Hb & Hs & _).
  exists bars. split; [exact Hb|exact Hs].
Defined.

(** X18 on the sample sheet: ETF 380, Stock 1200. *)
Lemma type_distribution_slices_sample :
  loaded (inr sample) sample_clean
  ∧ type_distribution sample_clean = ret [(Str "ETF", 380%Q); (Str "Stock", 1200%Q)]
  ∧ ∃ slices, type_distribution sample_clean = ret slices
              ∧ Forall (λ p, is_cash p.1 = false) slices.
Proof.
  split; [exact sample_loaded|]. split; [by vm_compute|].
  destruct (type_distribution_slices sample sample_clean sample_clean sample_loaded
              sample_Type_is_text eq_refl (λ r Hr, Hr) sample_clean_has_rows)
    as (slices & Hs & Hc & _).
  exists slices. split; [exact Hs|exact Hc].
Defined.

(** X19 on the sample sheet: "$1,005" and "1005". *)
Lemma symbols_do_not_count_sample :
  "Capital Input" ∈ cols_to_clean
  ∧ get "Capital Input" stock_row = Str "$1,005"
  ∧ get "Capital Input" stock_row_plain = Str "1005"
  ∧ get "Capital Input" (clean_row stock_row)
    = get "Capital Input" (clean_row stock_row_plain).
Proof.
  assert ("Capital Input" ∈ cols_to_clean) as Hc
    by (apply (bool_decide_unpack _); by vm_compute).
  split; [exact Hc|]. split; [reflexivity|]. split; [reflexivity|].
  exact (symbols_do_not_count "Capital Input" stock_row stock_row_plain
           "$1,005" "1005" Hc eq_refl eq_refl eq_refl eq_refl).
Defined.
